(** * Autograph: chain store client (signer/contentsignaturepki/upload.go)
      and the APK2 signer (package apk2)

    The Go functions are glue around library calls (net/http, os, io/ioutil,
    the S3 upload manager, os/exec, log).  Each of them is embedded as a
    program that issues those calls one after the other and branches on
    their replies; the pure library functions the code consults (net/url,
    encoding/pem, crypto/x509, crypto/sha256, the signer configuration's key
    parser) are the fields of type classes, so that every property below
    holds whatever those libraries answer. *)

From Stdlib Require Import String Ascii List ZArith NArith Bool Lia.
From stdpp Require Import gmap strings pretty.
Import ListNotations.

(** ** The Go side: values, errors, library calls *)

Module Go.

(** [[]byte] and [string] are both byte sequences; the conversions
    [[]byte(s)] and [string(b)] are the identity here. *)
Definition bytes := string.

(** A non-nil [error].  [errorString] is what errors.New, errors.Errorf and
    fmt.Errorf build (the message already formatted) and what libraries
    return; [withMessage] is what github.com/pkg/errors.Wrap builds around a
    cause.  A Go [error] value is an [option error], [None] being nil. *)
Inductive error : Type :=
| errorString (msg : string)
| withMessage (cause : error) (msg : string).

(** The [Error()] method: a wrapped error prints "msg: cause". *)
Fixpoint Error (e : error) : string :=
  match e with
  | errorString msg => msg
  | withMessage cause msg => msg +:+ ": " +:+ Error cause
  end.

Definition errors_New (message : string) : error := errorString message.

(** errors.Wrap(err, message): "If err is nil, Wrap returns nil." *)
Definition errors_Wrap (err : option error) (message : string) : option error :=
  match err with
  | None => None
  | Some cause => Some (withMessage cause message)
  end.

(** A library function returning [(T, error)] with one of the two set. *)
Inductive result (A : Type) : Type :=
| Ok (a : A)
| Err (e : error).
Arguments Ok {A} a.
Arguments Err {A} e.

(** strings.Contains *)
Fixpoint strings_Contains (s substr : string) : bool :=
  String.prefix substr s ||
  match s with
  | EmptyString => false
  | String _ s' => strings_Contains s' substr
  end.

(** The [%x] verb applied to a byte slice: two lower-case hexadecimal digits
    per byte. *)
Definition hexdigit (n : N) : ascii :=
  match String.get (N.to_nat n) "0123456789abcdef" with
  | Some c => c
  | None => "0"%char
  end.

Definition hex_byte (b : ascii) : string :=
  String (hexdigit (N_of_ascii b / 16)) (String (hexdigit (N_of_ascii b mod 16)) EmptyString).

Fixpoint fmt_x (b : bytes) : string :=
  match b with
  | EmptyString => EmptyString
  | String c rest => hex_byte c +:+ fmt_x rest
  end.

(** os.FileMode permission bits, written in octal in the source:
    [oct 7 5 5] is Go's [0755]. *)
Definition FileMode := N.
Definition oct (u g o : N) : FileMode := (u * 64 + g * 8 + o)%N.

(** The newline escape of Go string literals *)
Definition nl : string := String (ascii_of_nat 10) EmptyString.

(** net/url.URL, the fields upload.go reads *)
Record URL := { Scheme : string; Host : string; Path : string }.

(** net/http: a client is its transport; the zero client uses the default
    transport.  A transport is the list of protocol handlers registered on
    it. *)
Inductive RoundTripper : Set := http_NewFileTransport (root : string).
Record Transport := { protocols : list (string * RoundTripper) }.
Definition Transport_RegisterProtocol (scheme : string) (rt : RoundTripper) (t : Transport) : Transport :=
  {| protocols := protocols t ++ [(scheme, rt)] |}.
Record Client := { ClientTransport : option Transport }.

(** The body of a response is a stream handle, read with ioutil.ReadAll. *)
Definition ReadCloser := string.
Record Response := { Status : string; StatusCode : Z; Body : ReadCloser }.
Definition http_StatusOK : Z := 200.

Record FileInfo := { FileInfo_IsDir : bool; FileInfo_Mode : FileMode }.
Record File := { Name : string }.

(** exec.Command(name, arg...) *)
Record Cmd := { CmdPath : string; Args : list string }.
Definition exec_Command (name : string) (arg : list string) : Cmd :=
  {| CmdPath := name; Args := name :: arg |}.

(** s3manager.UploadInput, the fields upload.go sets ([aws.String] only
    takes the address of its argument) *)
Record UploadInput := {
  Bucket : string;
  Key : string;
  ACL : string;
  UploadBody : bytes;
  ContentType : string;
  ContentDisposition : string
}.
Inductive Session : Set := aws_session.

(** The library calls with an effect, and what each one returns. *)
Inductive Call : Type :=
| os_Stat (name : string)
| os_MkdirAll (path : string) (perm : FileMode)
| ioutil_WriteFile (filename : string) (data : bytes) (perm : FileMode)
| ioutil_TempFile (dir pattern : string)
| ioutil_ReadFile (filename : string)
| os_Remove (name : string)
| session_NewSession
| Uploader_Upload (sess : Session) (input : UploadInput)
| Client_Get (c : Client) (url : string)
| ioutil_ReadAll (r : ReadCloser)
| Body_Close (r : ReadCloser)
| Cmd_CombinedOutput (cmd : Cmd)
| log_Printf (msg : string)
| log_Debugf (msg : string).

Definition reply (c : Call) : Type :=
  match c with
  | os_Stat _ => result FileInfo
  | os_MkdirAll _ _ => option error
  | ioutil_WriteFile _ _ _ => option error
  | ioutil_TempFile _ _ => result File
  | ioutil_ReadFile _ => result bytes
  | os_Remove _ => option error
  | session_NewSession => result Session
  | Uploader_Upload _ _ => option error
  | Client_Get _ _ => result Response
  | ioutil_ReadAll _ => result bytes
  | Body_Close _ => option error
  | Cmd_CombinedOutput _ => (bytes * option error)%type
  | log_Printf _ => unit
  | log_Debugf _ => unit
  end.

(** A function body: it returns, panics, or performs a call and goes on
    with the reply. *)
Inductive Prog (R : Type) : Type :=
| Ret (r : R)
| Panic (v : error)
| Vis (c : Call) (k : reply c -> Prog R).
Arguments Ret {R} r.
Arguments Panic {R} v.
Arguments Vis {R} c k.

(** [defer f(args)]: the call is performed when the rest of the function
    has returned or panicked, and its result is dropped. *)
Fixpoint defer {R} (c : Call) (body : Prog R) : Prog R :=
  match body with
  | Ret r => Vis c (fun _ => Ret r)
  | Panic v => Vis c (fun _ => Panic v)
  | Vis c' k => Vis c' (fun x => defer c (k x))
  end.

(** session.Must *)
Definition session_Must {R} (r : result Session) (k : Session -> Prog R) : Prog R :=
  match r with
  | Ok sess => k sess
  | Err e => Panic e
  end.

(** Running a program against an environment [h] that answers the calls
    and threads its own state.  The trace lists the calls performed, in
    order, each with its reply. *)
Definition Handler (W : Type) : Type := forall c : Call, W -> reply c * W.
Definition Event : Type := { c : Call & reply c }.

Inductive Completion (R : Type) : Type :=
| Returned (r : R)
| Panicked (v : error).
Arguments Returned {R} r.
Arguments Panicked {R} v.

Record Outcome (R W : Type) := {
  value : Completion R;
  world : W;
  trace : list Event
}.
Arguments value {R W} o.
Arguments world {R W} o.
Arguments trace {R W} o.

Fixpoint run {R W} (h : Handler W) (p : Prog R) (w : W) : Outcome R W :=
  match p with
  | Ret r => {| value := Returned r; world := w; trace := [] |}
  | Panic v => {| value := Panicked v; world := w; trace := [] |}
  | Vis c k =>
      let o := run h (k (fst (h c w))) (snd (h c w)) in
      {| value := value o; world := world o;
         trace := existT c (fst (h c w)) :: trace o |}
  end.

Definition calls (t : list Event) : list Call := map (@projT1 Call reply) t.

End Go.

Import Go.

Declare Scope prog_scope.
Delimit Scope prog_scope with prog.
Bind Scope prog_scope with Prog.
Notation "x <- c ;; k" := (Vis c (fun x => k))
  (at level 100, c at next level, right associativity) : prog_scope.
Open Scope prog_scope.

(** ** crypto/x509 and encoding/pem, as far as upload.go uses them *)

Inductive ExtKeyUsage : Type :=
| ExtKeyUsageAny
| ExtKeyUsageServerAuth
| ExtKeyUsageClientAuth
| ExtKeyUsageCodeSigning
| ExtKeyUsageEmailProtection
| ExtKeyUsageIPSECEndSystem
| ExtKeyUsageIPSECTunnel
| ExtKeyUsageIPSECUser
| ExtKeyUsageTimeStamping
| ExtKeyUsageOCSPSigning
| ExtKeyUsageMicrosoftServerGatedCrypto
| ExtKeyUsageNetscapeServerGatedCrypto
| ExtKeyUsageMicrosoftCommercialCodeSigning
| ExtKeyUsageMicrosoftKernelCodeSigning.

(** pem.Block *)
Record Block := { BlockType : string; Bytes : bytes }.

(** x509.CertPool: NewCertPool is the empty pool, AddCert adds one. *)
Definition CertPool (Certificate : Type) : Type := list Certificate.
Definition x509_NewCertPool {Certificate : Type} : CertPool Certificate := [].
Definition CertPool_AddCert {Certificate : Type} (cert : Certificate) (s : CertPool Certificate) :
  CertPool Certificate := s ++ [cert].

(** x509.VerifyOptions, the fields GetX5U sets; the others keep their zero
    value. *)
Record VerifyOptions (Certificate : Type) := {
  Roots : CertPool Certificate;
  Intermediates : CertPool Certificate;
  KeyUsages : list ExtKeyUsage
}.
Arguments Roots {Certificate} v.
Arguments Intermediates {Certificate} v.
Arguments KeyUsages {Certificate} v.

(** net/url.Parse *)
Class NetURL := { url_Parse : string -> result URL }.

(** pem.Decode returns the first block found and the remainder of the
    input, or no block; x509.ParseCertificate parses DER bytes;
    Certificate.Verify returns the verified chains or an error. *)
Class X509 := {
  Certificate : Type;
  pem_Decode : bytes -> option Block * bytes;
  x509_ParseCertificate : bytes -> result Certificate;
  Certificate_Verify : Certificate -> VerifyOptions Certificate -> result (list (list Certificate))
}.

(** ** package contentsignaturepki: upload.go *)

Module contentsignaturepki.
Section Upload.
Context `{NetURL} `{X509}.

(** ContentSigner, the field upload.go reads *)
Record ContentSigner := { chainUploadLocation : string }.

Definition uploadToS3 (data name : string) (target : URL) : Prog (option error) :=
  sess <- session_NewSession ;;
  session_Must sess (fun sess =>
  (* uploader := s3manager.NewUploader(sess) *)
  err <- Uploader_Upload sess {|
    Bucket := Host target;
    Key := Path target +:+ name;
    ACL := "public-read";
    UploadBody := data;
    ContentType := "binary/octet-stream";
    ContentDisposition := "attachment" |} ;;
  Ret err).

Definition writeLocalFile (data name : string) (target : URL) : Prog (option error) :=
  (* write the file into the target dir *)
  let write : Prog (option error) :=
    err <- ioutil_WriteFile (Path target +:+ name) data (oct 7 5 5) ;;
    Ret err in
  (* upload dir may not exist yet *)
  st <- os_Stat (Path target) ;;
  match st with
  | Err err =>
      if strings_Contains (Error err) "no such file or directory" then
        (* create the target directory *)
        err <- os_MkdirAll (Path target) (oct 7 5 5) ;;
        match err with
        | Some _ => Ret (errors_Wrap err "failed to make directory")
        | None => write
        end
      else Ret (Some err)
  | Ok _ => write
  end.

(** upload takes a string and a filename and puts it at the upload location
    defined in the signer *)
Definition upload (s : ContentSigner) (data name : string) : Prog (option error) :=
  match url_Parse (chainUploadLocation s) with
  | Err err => Ret (errors_Wrap (Some err) "failed to parse chain upload location")
  | Ok parsedURL =>
      if String.eqb (Scheme parsedURL) "s3" then uploadToS3 data name parsedURL
      else if String.eqb (Scheme parsedURL) "file" then writeLocalFile data name parsedURL
      else Ret (Some (errors_New ("unsupported upload scheme " +:+ Scheme parsedURL)))
  end.

(** The client GetX5U builds: the zero client, with a transport serving
    the "file" protocol from "/" when the URL has the file scheme. *)
Definition x5u_client (parsedURL : URL) : Client :=
  if String.eqb (Scheme parsedURL) "file" then
    {| ClientTransport :=
         Some (Transport_RegisterProtocol "file" (http_NewFileTransport "/") {| protocols := [] |}) |}
  else {| ClientTransport := None |}.

(** GetX5U retrieves a chain of certs from upload location, parses and
    verifies it, then returns the slice of parsed certificates.  The
    results are the named results [(certs, err)]; on each early [return]
    they hold what was assigned so far. *)
Definition GetX5U (x5u : string) : Prog (list Certificate * option error) :=
  let certs : list Certificate := [] in
  match url_Parse x5u with
  | Err err => Ret (certs, errors_Wrap (Some err) "failed to parse chain upload location")
  | Ok parsedURL =>
  let c := x5u_client parsedURL in
  resp <- Client_Get c x5u ;;
  match resp with
  | Err err => Ret (certs, errors_Wrap (Some err) "failed to retrieve x5u")
  | Ok resp =>
  defer (Body_Close (Body resp)) (
  if negb (Z.eqb (StatusCode resp) http_StatusOK) then
    Ret (certs, Some (errorString ("failed to retrieve x5u from " +:+ x5u +:+ ": " +:+ Status resp)))
  else
  body <- ioutil_ReadAll (Body resp) ;;
  match body with
  | Err err => Ret (certs, errors_Wrap (Some err) "failed to parse x5u body")
  | Ok body =>
  (* [err] is nil from here on, until a later call assigns it *)
  let err : option error := None in
  (* the first cert is the end entity, then the intermediate and the root *)
  let '(block, rest) := pem_Decode body in
  let malformed := Ret (certs, errors_Wrap err "failed to PEM decode ee certificate from chain") in
  match block with
  | None => malformed
  | Some block =>
  if negb (String.eqb (BlockType block) "CERTIFICATE") then malformed else
  match x509_ParseCertificate (Bytes block) with
  | Err err => Ret (certs, errors_Wrap (Some err) "failed to parse ee certificate from chain")
  | Ok ee =>
  let err : option error := None in
  let certs := certs ++ [ee] in
  (* the second cert is the intermediate *)
  let '(block, rest) := pem_Decode rest in
  let malformed := Ret (certs, errors_Wrap err "failed to PEM decode intermediate certificate from chain") in
  match block with
  | None => malformed
  | Some block =>
  if negb (String.eqb (BlockType block) "CERTIFICATE") then malformed else
  match x509_ParseCertificate (Bytes block) with
  | Err err => Ret (certs, errors_Wrap (Some err) "failed to parse intermediate issuer certificate from chain")
  | Ok inter =>
  let err : option error := None in
  let inters := CertPool_AddCert inter x509_NewCertPool in
  let certs := certs ++ [inter] in
  (* the third and last cert is the root *)
  let '(block, rest) := pem_Decode rest in
  let malformed := Ret (certs, errors_Wrap err "failed to PEM decode root certificate from chain") in
  match block with
  | None => malformed
  | Some block =>
  if negb (String.eqb (BlockType block) "CERTIFICATE") then malformed else
  match x509_ParseCertificate (Bytes block) with
  | Err err => Ret (certs, errors_Wrap (Some err) "failed to parse root certificate from chain")
  | Ok root =>
  if negb (Nat.eqb (String.length rest) 0) then
    Ret (certs, Some (errorString "trailing data after root certificate in chain"))
  else
  let roots := CertPool_AddCert root x509_NewCertPool in
  let certs := certs ++ [root] in
  let opts := {| Roots := roots; Intermediates := inters;
                 KeyUsages := [ExtKeyUsageCodeSigning] |} in
  match Certificate_Verify ee opts with
  | Err err => Ret (certs, errors_Wrap (Some err) "failed to verify certificate chain")
  | Ok _ => Ret (certs, None)
  end end end end end end end end) end end.

End Upload.
End contentsignaturepki.

(** ** package signer: the configuration record and the key types *)

Module signer.

(** signer.Configuration, the fields the APK2 signer and the monitor test
    read *)
Record Configuration := {
  ID : string;
  Type_ : string;
  PrivateKey : string;
  Certificate : string;
  X5U : string;
  Mode : string;
  PublicKey : string
}.

(** crypto.PrivateKey is an empty interface; a value carries its dynamic
    type. *)
Inductive crypto_PrivateKey : Type :=
| ecdsa_PrivateKey (k : bytes)
| rsa_PrivateKey (k : bytes)
| other_PrivateKey (dynamic_type : string) (k : bytes).

Definition SignedFile := bytes.

End signer.

(** What package apk2 takes from elsewhere: the configuration's key parser,
    the PKCS#8 encoder, SHA-256, and the [%q] verb of fmt. *)
Class KeyLib := {
  GetPrivateKey : signer.Configuration -> result signer.crypto_PrivateKey;
  x509_MarshalPKCS8PrivateKey : signer.crypto_PrivateKey -> result bytes;
  sha256_Sum : bytes -> bytes;
  fmt_q : string -> string
}.

(** ** package apk2 *)

Module apk2.
Import signer.
Section APK2.
Context `{KeyLib}.

(** Type of this signer is "apk2" (the constant [Type] of the package) *)
Definition Type' : string := "apk2".

(** APK2Signer holds the configuration of the signer *)
Record APK2Signer := {
  Configuration_ : Configuration;
  (* the minimum Android SDK version the signed APK will be compatible with *)
  minSdkVersion : string;
  pkcs8Key : bytes
}.

(** new(APK2Signer) *)
Definition new_APK2Signer : APK2Signer :=
  {| Configuration_ := {| ID := ""; Type_ := ""; PrivateKey := ""; Certificate := "";
                          X5U := ""; Mode := ""; PublicKey := "" |};
     minSdkVersion := ""; pkcs8Key := "" |}.

Definition with_Configuration (f : Configuration -> Configuration) (s : APK2Signer) : APK2Signer :=
  {| Configuration_ := f (Configuration_ s);
     minSdkVersion := minSdkVersion s; pkcs8Key := pkcs8Key s |}.
Definition set_Type (v : string) : APK2Signer -> APK2Signer :=
  with_Configuration (fun c =>
    {| ID := ID c; Type_ := v; PrivateKey := PrivateKey c; Certificate := Certificate c;
       X5U := X5U c; Mode := Mode c; PublicKey := PublicKey c |}).
Definition set_ID (v : string) : APK2Signer -> APK2Signer :=
  with_Configuration (fun c =>
    {| ID := v; Type_ := Type_ c; PrivateKey := PrivateKey c; Certificate := Certificate c;
       X5U := X5U c; Mode := Mode c; PublicKey := PublicKey c |}).
Definition set_PrivateKey (v : string) : APK2Signer -> APK2Signer :=
  with_Configuration (fun c =>
    {| ID := ID c; Type_ := Type_ c; PrivateKey := v; Certificate := Certificate c;
       X5U := X5U c; Mode := Mode c; PublicKey := PublicKey c |}).
Definition set_Certificate (v : string) : APK2Signer -> APK2Signer :=
  with_Configuration (fun c =>
    {| ID := ID c; Type_ := Type_ c; PrivateKey := PrivateKey c; Certificate := v;
       X5U := X5U c; Mode := Mode c; PublicKey := PublicKey c |}).
Definition set_minSdkVersion (v : string) (s : APK2Signer) : APK2Signer :=
  {| Configuration_ := Configuration_ s; minSdkVersion := v; pkcs8Key := pkcs8Key s |}.
Definition set_pkcs8Key (v : bytes) (s : APK2Signer) : APK2Signer :=
  {| Configuration_ := Configuration_ s; minSdkVersion := minSdkVersion s; pkcs8Key := v |}.

(** New initializes an apk signer using a configuration *)
Definition New (conf : Configuration) : Prog (option APK2Signer * option error) :=
  let s := new_APK2Signer in
  if negb (String.eqb (Type_ conf) Type') then
    Ret (None, Some (errorString
      ("apk2: invalid type " +:+ fmt_q (Type_ conf) +:+ ", must be " +:+ fmt_q Type')))
  else
  let s := set_Type (Type_ conf) s in
  if String.eqb (ID conf) "" then
    Ret (None, Some (errors_New "apk2: missing signer ID in signer configuration"))
  else
  let s := set_ID (ID conf) s in
  if String.eqb (PrivateKey conf) "" then
    Ret (None, Some (errors_New "apk2: missing private key in signer configuration"))
  else
  let s := set_PrivateKey (PrivateKey conf) s in
  match GetPrivateKey conf with
  | Err err => Ret (None, errors_Wrap (Some err) "apk2: failed to get private key from configuration")
  | Ok priv =>
  let rest (s : APK2Signer) : Prog (option APK2Signer * option error) :=
    (* apksigner wants a pkcs8 encoded privkey *)
    match x509_MarshalPKCS8PrivateKey priv with
    | Err err => Ret (None, errors_Wrap (Some err) "apk2: failed to encode private key to pkcs8")
    | Ok der =>
    let s := set_pkcs8Key der s in
    if String.eqb (Certificate conf) "" then
      Ret (None, Some (errors_New "apk2: missing public cert in signer configuration"))
    else
    let s := set_Certificate (Certificate conf) s in
    Ret (Some s, None)
    end in
  match priv with
  | ecdsa_PrivateKey _ =>
      (* ecdsa is only supported in sdk 18 and higher *)
      let s := set_minSdkVersion "18" s in
      _ <- log_Printf "apk2: setting min android sdk version to 18 as required to sign with ecdsa" ;;
      rest s
  | _ =>
      _ <- log_Printf "apk2: setting min android sdk version to 9" ;;
      let s := set_minSdkVersion "9" s in
      rest s
  end end.

(** Config returns the configuration of the current signer *)
Definition Config (s : APK2Signer) : Configuration :=
  {| ID := ID (Configuration_ s); Type_ := Type_ (Configuration_ s);
     PrivateKey := PrivateKey (Configuration_ s);
     Certificate := Certificate (Configuration_ s);
     X5U := ""; Mode := ""; PublicKey := "" |}.

(** Options are not implemented for this signer *)
Inductive Options : Set := Build_Options.

(** SignFile takes a whole APK and returns a signed and aligned version *)
Definition SignFile (s : APK2Signer) (file : bytes) (options : Options) :
  Prog (option SignedFile * option error) :=
  keyPath <- ioutil_TempFile "" ("apk2_" +:+ ID (Configuration_ s) +:+ ".key") ;;
  match keyPath with
  | Err err => Ret (None, errors_Wrap (Some err) "apk2: failed to create tempfile with private key")
  | Ok keyPath =>
  defer (os_Remove (Name keyPath)) (
  err <- ioutil_WriteFile (Name keyPath) (pkcs8Key s) (oct 4 0 0) ;;
  match err with
  | Some _ => Ret (None, errors_Wrap err "apk2: failed to write private key to tempfile")
  | None =>
  certPath <- ioutil_TempFile "" ("apk2_" +:+ ID (Configuration_ s) +:+ ".cert") ;;
  match certPath with
  | Err err => Ret (None, errors_Wrap (Some err) "apk2: failed to create tempfile for input to sign")
  | Ok certPath =>
  defer (os_Remove (Name certPath)) (
  err <- ioutil_WriteFile (Name certPath) (Certificate (Configuration_ s)) (oct 4 0 0) ;;
  match err with
  | Some _ => Ret (None, errors_Wrap err "apk2: failed to write public cert to tempfile")
  | None =>
  (* write the input to a temp file *)
  let h := sha256_Sum file in
  tmpAPKFile <- ioutil_TempFile "" ("apk2_input_" +:+ fmt_x h +:+ ".apk") ;;
  match tmpAPKFile with
  | Err err => Ret (None, errors_Wrap (Some err) "apk2: failed to create tempfile for input to sign")
  | Ok tmpAPKFile =>
  defer (os_Remove (Name tmpAPKFile)) (
  _ <- ioutil_WriteFile (Name tmpAPKFile) file (oct 7 5 5) ;;
  let apkSigCmd := exec_Command "java" ["-jar"; "/usr/bin/apksigner"; "sign";
    "--key"; Name keyPath;
    "--cert"; Name certPath;
    "--v1-signing-enabled"; "true";
    "--v2-signing-enabled"; "true";
    "--min-sdk-version"; minSdkVersion s;
    Name tmpAPKFile] in
  out_err <- Cmd_CombinedOutput apkSigCmd ;;
  let '(out, err) := out_err in
  match err with
  | Some _ => Ret (None, errors_Wrap err ("apk2: failed to sign" +:+ nl +:+ out))
  | None =>
  _ <- log_Debugf ("signed as:" +:+ nl +:+ out +:+ nl) ;;
  signedApk <- ioutil_ReadFile (Name tmpAPKFile) ;;
  match signedApk with
  | Err err => Ret (None, errors_Wrap (Some err) "apk2: failed to read signed file")
  | Ok signedApk => Ret (Some signedApk, None)
  end end) end end) end end) end.

End APK2.
End apk2.

(** ** A small concrete environment

    One instance of the libraries and of the outside world, used to run the
    programs on concrete inputs: an in-memory file system, object store and
    web, a line-oriented stand-in for the PEM codec, certificates looked up
    by their encoding, and chain building by key names.  The general
    theorems below do not depend on it. *)

Module Testbed.

Inductive Page : Set :=
| Unreachable (why : string)
| Served (code : Z) (status : string) (content : bytes).

Record World := {
  files : gmap string (FileMode * bytes);
  dirs : gmap string FileMode;
  objects : gmap (string * string) UploadInput;
  pages : gmap string Page;
  next_temp : nat;
  log_lines : list string
}.

Definition set_files (f : gmap string (FileMode * bytes)) (w : World) : World :=
  {| files := f; dirs := dirs w; objects := objects w; pages := pages w;
     next_temp := next_temp w; log_lines := log_lines w |}.
Definition set_dirs (d : gmap string FileMode) (w : World) : World :=
  {| files := files w; dirs := d; objects := objects w; pages := pages w;
     next_temp := next_temp w; log_lines := log_lines w |}.
Definition set_objects (o : gmap (string * string) UploadInput) (w : World) : World :=
  {| files := files w; dirs := dirs w; objects := o; pages := pages w;
     next_temp := next_temp w; log_lines := log_lines w |}.
Definition bump_temp (w : World) : World :=
  {| files := files w; dirs := dirs w; objects := objects w; pages := pages w;
     next_temp := S (next_temp w); log_lines := log_lines w |}.
Definition add_log (msg : string) (w : World) : World :=
  {| files := files w; dirs := dirs w; objects := objects w; pages := pages w;
     next_temp := next_temp w; log_lines := log_lines w ++ [msg] |}.

Definition no_such (op name : string) : error :=
  errorString (op +:+ " " +:+ name +:+ ": no such file or directory").

(** The environment's answers.  WriteFile gives a new file the requested
    permissions and keeps those of an existing one; TempFile creates an
    empty file with mode 0600 under /tmp, named after the pattern and a
    counter; the command run by CombinedOutput appends a mark to the file
    named by its last argument. *)
Definition sim : Handler World := fun c =>
  match c as c0 return World -> reply c0 * World with
  | os_Stat name => fun w =>
      match dirs w !! name, files w !! name with
      | Some m, _ => (Ok {| FileInfo_IsDir := true; FileInfo_Mode := m |}, w)
      | None, Some (m, _) => (Ok {| FileInfo_IsDir := false; FileInfo_Mode := m |}, w)
      | None, None => (Err (no_such "stat" name), w)
      end
  | os_MkdirAll path perm => fun w =>
      match files w !! path, dirs w !! path with
      | Some _, _ => (Some (errorString ("mkdir " +:+ path +:+ ": not a directory")), w)
      | None, Some _ => (None, w)
      | None, None => (None, set_dirs (<[path := perm]> (dirs w)) w)
      end
  | ioutil_WriteFile filename data perm => fun w =>
      match files w !! filename with
      | Some (m, _) => (None, set_files (<[filename := (m, data)]> (files w)) w)
      | None => (None, set_files (<[filename := (perm, data)]> (files w)) w)
      end
  | ioutil_TempFile dir pattern => fun w =>
      let name := (if String.eqb dir "" then "/tmp" else dir) +:+ "/" +:+ pattern
                  +:+ pretty (next_temp w) in
      (Ok {| Name := name |},
       bump_temp (set_files (<[name := (oct 6 0 0, EmptyString)]> (files w)) w))
  | ioutil_ReadFile filename => fun w =>
      match files w !! filename with
      | Some (_, data) => (Ok data, w)
      | None => (Err (no_such "open" filename), w)
      end
  | os_Remove name => fun w =>
      match files w !! name with
      | Some _ => (None, set_files (delete name (files w)) w)
      | None => (Some (no_such "remove" name), w)
      end
  | session_NewSession => fun w => (Ok aws_session, w)
  | Uploader_Upload _ input => fun w =>
      (None, set_objects (<[(Bucket input, Key input) := input]> (objects w)) w)
  | Client_Get _ url => fun w =>
      match pages w !! url with
      | Some (Served code status _) =>
          (Ok {| Status := status; StatusCode := code; Body := url |}, w)
      | Some (Unreachable why) => (Err (errorString ("Get " +:+ url +:+ ": " +:+ why)), w)
      | None => (Ok {| Status := "404 Not Found"; StatusCode := 404; Body := url |}, w)
      end
  | ioutil_ReadAll r => fun w =>
      match pages w !! r with
      | Some (Served _ _ content) => (Ok content, w)
      | _ => (Ok EmptyString, w)
      end
  | Body_Close _ => fun w => (None, w)
  | Cmd_CombinedOutput cmd => fun w =>
      let apk := List.last (Args cmd) EmptyString in
      match files w !! apk with
      | Some (m, data) =>
          (("Signed", None), set_files (<[apk := (m, data +:+ "[signed]")]> (files w)) w)
      | None => (("Failed to load signer", Some (errorString "exit status 1")), w)
      end
  | log_Printf msg => fun w => (tt, add_log msg w)
  | log_Debugf msg => fun w => (tt, add_log msg w)
  end.

(** net/url.Parse on plain [scheme://host/path] strings; a string that
    starts with a colon has no scheme and is refused. *)
Definition after (n : nat) (s : string) : string := substring n (String.length s - n) s.

Definition url : NetURL := {|
  url_Parse rawurl :=
    if String.prefix ":" rawurl then
      Err (errorString ("parse " +:+ rawurl +:+ ": missing protocol scheme"))
    else
      match index 0 "://" rawurl with
      | None => Ok {| Scheme := ""; Host := ""; Path := rawurl |}
      | Some i =>
          let rest := after (i + 3) rawurl in
          match index 0 "/" rest with
          | None => Ok {| Scheme := substring 0 i rawurl; Host := rest; Path := "" |}
          | Some j =>
              Ok {| Scheme := substring 0 i rawurl; Host := substring 0 j rest;
                    Path := after j rest |}
          end
      end
|}.

(** Certificates of the testbed: who holds which key, which key signed the
    certificate, and the extended key usages it carries. *)
Record Cert := {
  Subject : string;
  SubjectKey : string;
  IssuerKey : string;
  ExtKeyUsages : list ExtKeyUsage
}.

#[global] Instance ExtKeyUsage_eq_dec : EqDecision ExtKeyUsage.
Proof. solve_decision. Defined.

Definition ee_cert : Cert :=
  {| Subject := "normandy.content-signature.mozilla.org"; SubjectKey := "ee-key";
     IssuerKey := "inter-key"; ExtKeyUsages := [ExtKeyUsageCodeSigning] |}.
Definition inter_cert : Cert :=
  {| Subject := "signing intermediate"; SubjectKey := "inter-key";
     IssuerKey := "root-key"; ExtKeyUsages := [ExtKeyUsageCodeSigning] |}.
Definition root_cert : Cert :=
  {| Subject := "autograph root"; SubjectKey := "root-key";
     IssuerKey := "root-key"; ExtKeyUsages := [] |}.
(** A chain somebody else made: same subjects, other keys. *)
Definition rogue_ee : Cert :=
  {| Subject := "normandy.content-signature.mozilla.org"; SubjectKey := "rogue-ee-key";
     IssuerKey := "rogue-inter-key"; ExtKeyUsages := [ExtKeyUsageCodeSigning] |}.
Definition rogue_inter : Cert :=
  {| Subject := "signing intermediate"; SubjectKey := "rogue-inter-key";
     IssuerKey := "rogue-root-key"; ExtKeyUsages := [ExtKeyUsageCodeSigning] |}.
Definition rogue_root : Cert :=
  {| Subject := "autograph root"; SubjectKey := "rogue-root-key";
     IssuerKey := "rogue-root-key"; ExtKeyUsages := [] |}.
(** An end entity issued for TLS servers only. *)
Definition tls_ee : Cert :=
  {| Subject := "www.example"; SubjectKey := "tls-key";
     IssuerKey := "inter-key"; ExtKeyUsages := [ExtKeyUsageServerAuth] |}.

Definition encodings : list (bytes * Cert) :=
  [("der(ee)", ee_cert); ("der(inter)", inter_cert); ("der(root)", root_cert);
   ("der(rogue-ee)", rogue_ee); ("der(rogue-inter)", rogue_inter);
   ("der(rogue-root)", rogue_root); ("der(tls-ee)", tls_ee)].

Fixpoint assoc {A} (k : string) (l : list (string * A)) : option A :=
  match l with
  | [] => None
  | (k', v) :: l' => if String.eqb k k' then Some v else assoc k l'
  end.

(** Chains [c; i; r] with [i] among the intermediates, [r] among the roots
    and each certificate signed by the key of the next. *)
Definition build_chains (c : Cert) (opts : VerifyOptions Cert) : list (list Cert) :=
  flat_map (fun i =>
    if String.eqb (IssuerKey c) (SubjectKey i) then
      flat_map (fun r =>
        if String.eqb (IssuerKey i) (SubjectKey r) then [[c; i; r]] else [])
        (Roots opts)
    else []) (Intermediates opts).

(** The codec stand-in: one block per line, written [TYPE:bytes]. *)
Definition pki : X509 := {|
  Certificate := Cert;
  pem_Decode data :=
    match index 0 nl data with
    | None => (None, data)
    | Some i =>
        let line := substring 0 i data in
        match index 0 ":" line with
        | None => (None, data)
        | Some j =>
            (Some {| BlockType := substring 0 j line; Bytes := after (j + 1) line |},
             after (i + 1) data)
        end
    end;
  x509_ParseCertificate der :=
    match assoc der encodings with
    | Some c => Ok c
    | None => Err (errorString "x509: malformed certificate")
    end;
  Certificate_Verify c opts :=
    if forallb (fun u => bool_decide (u ∈ ExtKeyUsages c)) (KeyUsages opts) then
      match build_chains c opts with
      | [] => Err (errorString "x509: certificate signed by unknown authority")
      | chains => Ok chains
      end
    else Err (errorString "x509: certificate specifies an incompatible key usage")
|}.

(** Keys of the testbed are tagged by their algorithm; the digest stand-in
    keeps the first 32 bytes of its input, padded with zero bytes. *)
Definition dq : string := String (ascii_of_nat 34) EmptyString.
Definition zeros (n : nat) : string := String.concat EmptyString (repeat (String (ascii_of_nat 0) EmptyString) n).

Definition keys : KeyLib := {|
  GetPrivateKey conf :=
    if String.prefix "EC:" (signer.PrivateKey conf) then Ok (signer.ecdsa_PrivateKey (after 3 (signer.PrivateKey conf)))
    else if String.prefix "RSA:" (signer.PrivateKey conf) then Ok (signer.rsa_PrivateKey (after 4 (signer.PrivateKey conf)))
    else if String.prefix "DSA:" (signer.PrivateKey conf) then Ok (signer.other_PrivateKey "*dsa.PrivateKey" (after 4 (signer.PrivateKey conf)))
    else Err (errorString "failed to parse private key");
  x509_MarshalPKCS8PrivateKey priv :=
    match priv with
    | signer.ecdsa_PrivateKey k => Ok ("pkcs8(ec," +:+ k +:+ ")")
    | signer.rsa_PrivateKey k => Ok ("pkcs8(rsa," +:+ k +:+ ")")
    | signer.other_PrivateKey t _ => Err (errorString ("x509: unknown key type while marshaling PKCS#8: " +:+ t))
    end;
  sha256_Sum b := substring 0 32 (b +:+ zeros 32);
  fmt_q s := dq +:+ s +:+ dq
|}.

Definition line (type der : string) : string := type +:+ ":" +:+ der +:+ nl.

Definition good_chain : bytes :=
  line "CERTIFICATE" "der(ee)" +:+ line "CERTIFICATE" "der(inter)" +:+ line "CERTIFICATE" "der(root)".
Definition rogue_chain : bytes :=
  line "CERTIFICATE" "der(rogue-ee)" +:+ line "CERTIFICATE" "der(rogue-inter)"
  +:+ line "CERTIFICATE" "der(rogue-root)".
Definition tls_chain : bytes :=
  line "CERTIFICATE" "der(tls-ee)" +:+ line "CERTIFICATE" "der(inter)" +:+ line "CERTIFICATE" "der(root)".
(** Two certificates followed by a private key block. *)
Definition short_chain : bytes :=
  line "CERTIFICATE" "der(ee)" +:+ line "CERTIFICATE" "der(inter)" +:+ line "PRIVATE KEY" "k".

(** The world the examples start from: an empty /tmp, an empty object
    store, and a web server with a few chains. *)
Definition world0 : World := {|
  files := ∅;
  dirs := {[ "/tmp" := oct 7 7 7 ]};
  objects := ∅;
  pages :=
    <[ "https://cdn.example/chains/good.pem" := Served 200 "200 OK" good_chain ]>
    (<[ "https://cdn.example/chains/rogue.pem" := Served 200 "200 OK" rogue_chain ]>
    (<[ "https://cdn.example/chains/tls.pem" := Served 200 "200 OK" tls_chain ]>
    (<[ "https://cdn.example/chains/short.pem" := Served 200 "200 OK" short_chain ]>
    (<[ "https://cdn.example/chains/empty.pem" := Served 200 "200 OK" EmptyString ]>
    (<[ "https://cdn.example/chains/gone.pem" := Served 403 "403 Forbidden" "AccessDenied" ]>
    (<[ "https://down.example/chain.pem" := Unreachable "dial tcp: connection refused" ]> ∅))))));
  next_temp := 0;
  log_lines := []
|}.

End Testbed.

(** ** What a trace shows *)

Module Observe.

(** The inputs handed to the S3 uploader. *)
Definition upload_of (c : Call) : option UploadInput :=
  match c with Uploader_Upload _ input => Some input | _ => None end.
Definition uploads (t : list Event) : list UploadInput := omap upload_of (calls t).

(** The files written: name, content, permissions. *)
Definition write_of (c : Call) : option (string * bytes * FileMode) :=
  match c with ioutil_WriteFile f d p => Some (f, d, p) | _ => None end.
Definition written (t : list Event) : list (string * bytes * FileMode) :=
  omap write_of (calls t).

(** The directories made: path, permissions. *)
Definition mkdir_of (c : Call) : option (string * FileMode) :=
  match c with os_MkdirAll d p => Some (d, p) | _ => None end.
Definition made_dirs (t : list Event) : list (string * FileMode) := omap mkdir_of (calls t).

(** The temp files asked for (directory, pattern) and those obtained. *)
Definition pattern_of (c : Call) : option (string * string) :=
  match c with ioutil_TempFile d p => Some (d, p) | _ => None end.
Definition tempfile_patterns (t : list Event) : list (string * string) :=
  omap pattern_of (calls t).

Definition created_of (e : Event) : option string :=
  match e with
  | existT c r =>
      match c as c0 return reply c0 -> option string with
      | ioutil_TempFile _ _ => fun r =>
          match r with Ok f => Some (Name f) | Err _ => None end
      | _ => fun _ => None
      end r
  end.
Definition created (t : list Event) : list string := omap created_of t.

(** The files removed. *)
Definition is_Remove (c : Call) : bool :=
  match c with os_Remove _ => true | _ => false end.
Definition remove_of (c : Call) : option string :=
  match c with os_Remove name => Some name | _ => None end.
Definition removed (t : list Event) : list string := omap remove_of (calls t).

(** Calls of the S3 client, and calls on the local file system. *)
Definition is_s3_call (c : Call) : bool :=
  match c with session_NewSession | Uploader_Upload _ _ => true | _ => false end.
Definition is_local_file_call (c : Call) : bool :=
  match c with os_Stat _ | os_MkdirAll _ _ | ioutil_WriteFile _ _ _ => true | _ => false end.

(** The GET failed, or its status is not 200 OK. *)
Definition get_failed (r : result Response) : bool :=
  match r with
  | Err _ => true
  | Ok resp => negb (Z.eqb (StatusCode resp) http_StatusOK)
  end.

(** os.Stat reported the path absent, as writeLocalFile reads it. *)
Definition reports_absent (st : result FileInfo) : bool :=
  match st with
  | Err e => strings_Contains (Error e) "no such file or directory"
  | Ok _ => false
  end.

(** The target directory is there for the write: os.Stat found it, or
    reported it absent and os.MkdirAll then made it. *)
Definition directory_ready {W} (h : Handler W) (w : W) (dir : string) : bool :=
  match fst (h (os_Stat dir) w) with
  | Ok _ => true
  | Err e =>
      strings_Contains (Error e) "no such file or directory" &&
      match fst (h (os_MkdirAll dir (oct 7 5 5)) (snd (h (os_Stat dir) w))) with
      | None => true
      | Some _ => false
      end
  end.

(** A PEM block that is missing or not a CERTIFICATE. *)
Definition not_certificate (b : option Block) : bool :=
  match b with
  | None => true
  | Some b => negb (String.eqb (BlockType b) "CERTIFICATE")
  end.

Section Chains.
Context `{NetURL} `{X509}.

(** The body GetX5U gets to parse: the URL parses, the GET answers 200 OK
    and the body is read to its end. *)
Definition fetch {W} (h : Handler W) (w : W) (x5u : string) : option bytes :=
  match url_Parse x5u with
  | Err _ => None
  | Ok u =>
      let get := h (Client_Get (contentsignaturepki.x5u_client u) x5u) w in
      match fst get with
      | Err _ => None
      | Ok resp =>
          if Z.eqb (StatusCode resp) http_StatusOK then
            match fst (h (ioutil_ReadAll (Body resp)) (snd get)) with
            | Ok body => Some body
            | Err _ => None
            end
          else None
      end
  end.

(** The first [n] PEM blocks of [data] are CERTIFICATE blocks that parse:
    the certificates, in order, and what follows them. *)
Fixpoint pem_certificates (n : nat) (data : bytes) : option (list Certificate * bytes) :=
  match n with
  | 0 => Some ([], data)
  | S n' =>
      match pem_Decode data with
      | (Some b, rest) =>
          if String.eqb (BlockType b) "CERTIFICATE" then
            match x509_ParseCertificate (Bytes b) with
            | Ok c =>
                match pem_certificates n' rest with
                | Some (cs, rest') => Some (c :: cs, rest')
                | None => None
                end
            | Err _ => None
            end
          else None
      | (None, _) => None
      end
  end.

(** The options GetX5U verifies with. *)
Definition chain_options (inter root : Certificate) : VerifyOptions Certificate :=
  {| Roots := [root]; Intermediates := [inter]; KeyUsages := [ExtKeyUsageCodeSigning] |}.

End Chains.

(** A configuration New refuses for one of: wrong type tag, missing ID,
    missing private key, unparsable key, missing certificate. *)
Definition misconfigured `{KeyLib} (conf : signer.Configuration) : Prop :=
  signer.Type_ conf <> apk2.Type' \/
  signer.ID conf = "" \/
  signer.PrivateKey conf = "" \/
  (exists e, GetPrivateKey conf = Err e) \/
  signer.Certificate conf = "".

(** The three writes of SignFile, in order: content and permissions. *)
Definition SignFile_contents (s : apk2.APK2Signer) (file : bytes) : list (bytes * FileMode) :=
  [(apk2.pkcs8Key s, oct 4 0 0);
   (signer.Certificate (apk2.Configuration_ s), oct 4 0 0);
   (file, oct 7 5 5)].

(** The three temp file patterns of SignFile, in order. *)
Definition SignFile_patterns `{KeyLib} (s : apk2.APK2Signer) (file : bytes) : list (string * string) :=
  [("", "apk2_" +:+ signer.ID (apk2.Configuration_ s) +:+ ".key");
   ("", "apk2_" +:+ signer.ID (apk2.Configuration_ s) +:+ ".cert");
   ("", "apk2_input_" +:+ fmt_x (sha256_Sum file) +:+ ".apk")].

End Observe.

(** Configurations used in the examples. *)
Module Samples.

Definition ecdsa_conf : signer.Configuration :=
  {| signer.ID := "apk_cert_with_ecdsa_sha256"; signer.Type_ := "apk2";
     signer.PrivateKey := "EC:d"; signer.Certificate := "cert";
     signer.X5U := ""; signer.Mode := ""; signer.PublicKey := "" |}.

Definition rsa_conf : signer.Configuration :=
  {| signer.ID := "testapp-android"; signer.Type_ := "apk2";
     signer.PrivateKey := "RSA:n,e,d"; signer.Certificate := "cert";
     signer.X5U := ""; signer.Mode := ""; signer.PublicKey := "" |}.

(** The same signer with its private key left out. *)
Definition keyless_conf : signer.Configuration :=
  {| signer.ID := "testapp-android"; signer.Type_ := "apk2";
     signer.PrivateKey := ""; signer.Certificate := "cert";
     signer.X5U := ""; signer.Mode := ""; signer.PublicKey := "" |}.

End Samples.

(** ** Replies seen in a trace, and further shapes *)

Module Replies.

(** What each WriteFile answered. *)
Definition write_result_of (e : Event) : option (option error) :=
  match e with
  | existT c r =>
      match c as c0 return reply c0 -> option (option error) with
      | ioutil_WriteFile _ _ _ => fun r => Some r
      | _ => fun _ => None
      end r
  end.
Definition write_results (t : list Event) : list (option error) := omap write_result_of t.

(** The commands run, and what each one answered. *)
Definition command_of (c : Call) : option Cmd :=
  match c with Cmd_CombinedOutput cmd => Some cmd | _ => None end.
Definition commands (t : list Event) : list Cmd := omap command_of (calls t).

Definition command_result_of (e : Event) : option (bytes * option error) :=
  match e with
  | existT c r =>
      match c as c0 return reply c0 -> option (bytes * option error) with
      | Cmd_CombinedOutput _ => fun r => Some r
      | _ => fun _ => None
      end r
  end.
Definition command_results (t : list Event) : list (bytes * option error) :=
  omap command_result_of t.

(** The files read with ioutil.ReadFile, and what came back. *)
Definition file_read_of (e : Event) : option (string * result bytes) :=
  match e with
  | existT c r =>
      match c as c0 return reply c0 -> option (string * result bytes) with
      | ioutil_ReadFile name => fun r => Some (name, r)
      | _ => fun _ => None
      end r
  end.
Definition file_reads (t : list Event) : list (string * result bytes) := omap file_read_of t.

(** An object uploaded for public download with the given content. *)
Definition public_attachment (data : bytes) (i : UploadInput) : Prop :=
  ACL i = "public-read" /\ UploadBody i = data /\
  ContentType i = "binary/octet-stream" /\ ContentDisposition i = "attachment".

(** The apksigner command line for a key file, a certificate file and an
    input file. *)
Definition apksigner_command (s : apk2.APK2Signer) (key cert input : string) : Cmd :=
  exec_Command "java"
    ["-jar"; "/usr/bin/apksigner"; "sign"; "--key"; key; "--cert"; cert;
     "--v1-signing-enabled"; "true"; "--v2-signing-enabled"; "true";
     "--min-sdk-version"; apk2.minSdkVersion s; input].

Section Chains.
Context `{X509}.

(** Fewer than three certificates, then a block that is missing or is not
    a CERTIFICATE. *)
Definition stops_short (body : bytes) (certs : list Certificate) : Prop :=
  exists k rest,
    k < 3 /\ Observe.pem_certificates k body = Some (certs, rest) /\
    Observe.not_certificate (fst (pem_Decode rest)) = true.

(** Exactly three certificates, nothing after them, and an end entity that
    verifies against the other two. *)
Definition verified_chain (body : bytes) (certs : list Certificate) : Prop :=
  exists ee inter root chains,
    certs = [ee; inter; root] /\
    Observe.pem_certificates 3 body = Some (certs, EmptyString) /\
    Certificate_Verify ee (Observe.chain_options inter root) = Ok chains.

End Chains.

End Replies.

(** ** Further situations of the testbed *)

Module Scenarios.
Import Testbed.

Definition with_page (url : string) (p : Page) (w : World) : World :=
  {| files := files w; dirs := dirs w; objects := objects w;
     pages := <[url := p]> (pages w);
     next_temp := next_temp w; log_lines := log_lines w |}.

(** A good chain followed by stray bytes, and a chain whose second block
    does not hold a certificate. *)
Definition trailing_chain : bytes := good_chain +:+ "stray".
Definition garbled_chain : bytes :=
  line "CERTIFICATE" "der(ee)" +:+ line "CERTIFICATE" "not der" +:+ line "CERTIFICATE" "der(root)".

Definition world1 : World :=
  with_page "https://cdn.example/chains/trailing.pem" (Served 200 "200 OK" trailing_chain)
    (with_page "https://cdn.example/chains/garbled.pem" (Served 200 "200 OK" garbled_chain)
       world0).

(** An environment in which os.Stat is refused. *)
Definition sim_denied : Handler World := fun c =>
  match c as c0 return World -> reply c0 * World with
  | os_Stat name => fun w =>
      (Err (errorString ("stat " +:+ name +:+ ": permission denied")), w)
  | c1 => sim c1
  end.

(** An environment in which directories cannot be made. *)
Definition sim_readonly : Handler World := fun c =>
  match c as c0 return World -> reply c0 * World with
  | os_MkdirAll path _ => fun w =>
      (Some (errorString ("mkdir " +:+ path +:+ ": read-only file system")), w)
  | c1 => sim c1
  end.

(** An environment in which the signing command fails. *)
Definition sim_no_java : Handler World := fun c =>
  match c as c0 return World -> reply c0 * World with
  | Cmd_CombinedOutput _ => fun w =>
      (("Error: Unable to access jarfile /usr/bin/apksigner",
        Some (errorString "exit status 1")), w)
  | c1 => sim c1
  end.

(** An environment without AWS credentials. *)
Definition sim_no_session : Handler World := fun c =>
  match c as c0 return World -> reply c0 * World with
  | session_NewSession => fun w =>
      (Err (errorString "NoCredentialProviders: no valid providers in chain"), w)
  | c1 => sim c1
  end.

(** A signer whose key is of a type the PKCS#8 encoder refuses. *)
Definition dsa_conf : signer.Configuration :=
  {| signer.ID := "legacy"; signer.Type_ := "apk2";
     signer.PrivateKey := "DSA:p,q,g,x"; signer.Certificate := "cert";
     signer.X5U := ""; signer.Mode := ""; signer.PublicKey := "" |}.

Definition ecdsa_signer : apk2.APK2Signer :=
  {| apk2.Configuration_ := Samples.ecdsa_conf; apk2.minSdkVersion := "18";
     apk2.pkcs8Key := "pkcs8(ec,d)" |}.

End Scenarios.

(** ** The world between the calls, and the diagnostics of New *)

Module History.

(** The state of the environment after each call of a run, in order: the
    n-th entry is the world left by the n-th call of the trace. *)
Fixpoint worlds {R W} (h : Handler W) (p : Prog R) (w : W) : list W :=
  match p with
  | Ret _ => []
  | Panic _ => []
  | Vis c k => snd (h c w) :: worlds h (k (fst (h c w))) (snd (h c w))
  end.

(** The diagnostic of the first check of New that fails, the checks being
    taken in the order: type tag, ID, private key present, private key
    parses, private key encodes to PKCS#8, certificate present. *)
Definition first_failed_check `{KeyLib} (conf : signer.Configuration) (e : error) : Prop :=
  (signer.Type_ conf <> apk2.Type' /\
   e = errorString ("apk2: invalid type " +:+ fmt_q (signer.Type_ conf)
                    +:+ ", must be " +:+ fmt_q apk2.Type')) \/
  (signer.Type_ conf = apk2.Type' /\
   ((signer.ID conf = "" /\
     e = errorString "apk2: missing signer ID in signer configuration") \/
    (signer.ID conf <> "" /\
     ((signer.PrivateKey conf = "" /\
       e = errorString "apk2: missing private key in signer configuration") \/
      (signer.PrivateKey conf <> "" /\
       match GetPrivateKey conf with
       | Err cause =>
           e = withMessage cause "apk2: failed to get private key from configuration"
       | Ok priv =>
           match x509_MarshalPKCS8PrivateKey priv with
           | Err cause =>
               e = withMessage cause "apk2: failed to encode private key to pkcs8"
           | Ok _ =>
               signer.Certificate conf = "" /\
               e = errorString "apk2: missing public cert in signer configuration"
           end
       end))))).

End History.

(** * Properties *)

Import Observe.

(** ** Deferred calls *)

Lemma run_defer {R W} (h : Handler W) (c : Call) (body : Prog R) (w : W) :
  run h (defer c body) w =
  {| value := value (run h body w);
     world := snd (h c (world (run h body w)));
     trace := trace (run h body w) ++ [existT c (fst (h c (world (run h body w))))] |}.
Proof.
  revert w. induction body as [r | v | c' k IH]; intros w; simpl; try reflexivity.
  rewrite IH. reflexivity.
Qed.

Lemma value_defer {R W} (h : Handler W) (c : Call) (body : Prog R) (w : W) :
  value (run h (defer c body) w) = value (run h body w).
Proof. rewrite run_defer. reflexivity. Qed.

(** Case analysis on what a hypothesis or the goal branches on. *)
Ltac case_hyp H :=
  match type of H with
  | context [match ?x with _ => _ end] => destruct x eqn:?; try discriminate H
  end.

Ltac case_goal :=
  match goal with
  | |- context [match ?x with _ => _ end] => destruct x eqn:?
  end.

(** ** GetX5U *)

Section GetX5U_facts.
Context {N : NetURL} {X : X509} {W : Type} (h : Handler W).

(** C4: when the GET fails, or answers with a status other than 200 OK,
    GetX5U returns a non-nil error and no certificates. *)
Theorem GetX5U_retrieval_failure (w : W) (x5u : string) (u : URL) :
  url_Parse x5u = Ok u ->
  get_failed (fst (h (Client_Get (contentsignaturepki.x5u_client u) x5u) w)) = true ->
  exists e, value (run h (contentsignaturepki.GetX5U x5u) w) = Returned ([], Some e).
Proof.
  intros Hu Hget. unfold contentsignaturepki.GetX5U. rewrite Hu. simpl.
  destruct (h (Client_Get (contentsignaturepki.x5u_client u) x5u) w) as [[resp | e] w1];
    simpl in *.
  - rewrite value_defer. rewrite Hget. simpl. eauto.
  - eauto.
Qed.

(** Once the body is fetched, the result is that of the parsing and
    verification steps; the deferred Close does not change it. *)
Lemma fetch_inv (w : W) (x5u : string) (body : bytes) :
  fetch h w x5u = Some body ->
  exists u resp w1 w2,
    url_Parse x5u = Ok u /\
    h (Client_Get (contentsignaturepki.x5u_client u) x5u) w = (Ok resp, w1) /\
    Z.eqb (StatusCode resp) http_StatusOK = true /\
    h (ioutil_ReadAll (Body resp)) w1 = (Ok body, w2).
Proof.
  unfold fetch. intros Hf.
  destruct (url_Parse x5u) as [u | ]; [ | discriminate].
  destruct (h (Client_Get (contentsignaturepki.x5u_client u) x5u) w) as [[resp | ] w1] eqn:Hget;
    simpl in Hf; [ | discriminate].
  destruct (Z.eqb (StatusCode resp) http_StatusOK) eqn:Hok; [ | discriminate].
  destruct (h (ioutil_ReadAll (Body resp)) w1) as [[b | ] w2] eqn:Hread;
    simpl in Hf; [ | discriminate].
  injection Hf as ->. exists u, resp, w1, w2. repeat split; auto.
Qed.

Lemma pem_certificates_S (n : nat) (data : bytes) (cs : list Certificate) (rest : bytes) :
  pem_certificates (S n) data = Some (cs, rest) ->
  exists b r c cs',
    cs = c :: cs' /\
    pem_Decode data = (Some b, r) /\
    String.eqb (BlockType b) "CERTIFICATE" = true /\
    x509_ParseCertificate (Bytes b) = Ok c /\
    pem_certificates n r = Some (cs', rest).
Proof.
  simpl. intros Hp.
  destruct (pem_Decode data) as [[b | ] r] eqn:Hd; [ | discriminate].
  destruct (String.eqb (BlockType b) "CERTIFICATE") eqn:Ht; [ | discriminate].
  destruct (x509_ParseCertificate (Bytes b)) as [c | ] eqn:Hc; [ | discriminate].
  destruct (pem_certificates n r) as [[cs' rest'] | ] eqn:Hn; [ | discriminate].
  injection Hp as <- <-. exists b, r, c, cs'. repeat split; auto.
Qed.

(** C3: a body that parses as three certificates with nothing after them
    is verified with the Code Signing usage, the second certificate as
    the only intermediate and the third as the only root; GetX5U returns
    an error exactly when that verification fails. *)
Theorem GetX5U_verification (w : W) (x5u : string) (body : bytes)
    (ee inter root : Certificate) :
  fetch h w x5u = Some body ->
  pem_certificates 3 body = Some ([ee; inter; root], EmptyString) ->
  match Certificate_Verify ee (chain_options inter root) with
  | Ok _ =>
      value (run h (contentsignaturepki.GetX5U x5u) w) = Returned ([ee; inter; root], None)
  | Err e =>
      value (run h (contentsignaturepki.GetX5U x5u) w) =
      Returned ([ee; inter; root], Some (withMessage e "failed to verify certificate chain"))
  end.
Proof.
  intros Hf Hp. apply fetch_inv in Hf as (u & resp & w1 & w2 & Hu & Hget & Hok & Hread).
  unfold contentsignaturepki.GetX5U. rewrite Hu. simpl. rewrite Hget. simpl.
  rewrite value_defer. rewrite Hok. simpl. rewrite Hread. simpl.
  apply pem_certificates_S in Hp as (b1 & r1 & c1 & cs1 & E1 & D1 & T1 & P1 & Hp).
  apply pem_certificates_S in Hp as (b2 & r2 & c2 & cs2 & E2 & D2 & T2 & P2 & Hp).
  apply pem_certificates_S in Hp as (b3 & r3 & c3 & cs3 & E3 & D3 & T3 & P3 & Hp).
  simpl in Hp. simplify_eq.
  rewrite D1, T1, P1. simpl. rewrite D2, T2, P2. simpl. rewrite D3, T3, P3. simpl.
  unfold chain_options, CertPool_AddCert, x509_NewCertPool. simpl.
  destruct (Certificate_Verify _ _); reflexivity.
Qed.

(** C2: where the next PEM block is missing or is not a CERTIFICATE,
    GetX5U returns the certificates parsed so far together with a nil
    error: the error it wraps at that point is the nil left by the call
    before. *)
Theorem GetX5U_malformed_chain_no_error (w : W) (x5u : string) (body : bytes)
    (k : nat) (certs : list Certificate) (rest : bytes) :
  k < 3 ->
  fetch h w x5u = Some body ->
  pem_certificates k body = Some (certs, rest) ->
  not_certificate (fst (pem_Decode rest)) = true ->
  value (run h (contentsignaturepki.GetX5U x5u) w) = Returned (certs, None).
Proof.
  intros Hk Hf Hp Hbad.
  apply fetch_inv in Hf as (u & resp & w1 & w2 & Hu & Hget & Hok & Hread).
  unfold contentsignaturepki.GetX5U. rewrite Hu. simpl. rewrite Hget. simpl.
  rewrite value_defer. rewrite Hok. simpl. rewrite Hread. simpl.
  destruct k as [ | [ | [ | k]]]; [ | | | lia].
  - simpl in Hp. simplify_eq.
    destruct (pem_Decode rest) as [[b | ] r]; simpl in *; [rewrite Hbad | ]; reflexivity.
  - apply pem_certificates_S in Hp as (b1 & r1 & c1 & cs1 & E1 & D1 & T1 & P1 & Hp).
    simpl in Hp. simplify_eq. rewrite D1, T1, P1. simpl.
    destruct (pem_Decode rest) as [[b | ] r]; simpl in *; [rewrite Hbad | ]; reflexivity.
  - apply pem_certificates_S in Hp as (b1 & r1 & c1 & cs1 & E1 & D1 & T1 & P1 & Hp).
    apply pem_certificates_S in Hp as (b2 & r2 & c2 & cs2 & E2 & D2 & T2 & P2 & Hp).
    simpl in Hp. simplify_eq. rewrite D1, T1, P1. simpl. rewrite D2, T2, P2. simpl.
    destruct (pem_Decode rest) as [[b | ] r]; simpl in *; [rewrite Hbad | ]; reflexivity.
Qed.

(** The sibling check on what follows the root does report an error. *)
Lemma GetX5U_trailing_data (w : W) (x5u : string) (body : bytes)
    (certs : list Certificate) (rest : bytes) :
  fetch h w x5u = Some body ->
  pem_certificates 3 body = Some (certs, rest) ->
  rest <> EmptyString ->
  value (run h (contentsignaturepki.GetX5U x5u) w) =
  Returned (firstn 2 certs, Some (errorString "trailing data after root certificate in chain")).
Proof.
  intros Hf Hp Hrest.
  apply fetch_inv in Hf as (u & resp & w1 & w2 & Hu & Hget & Hok & Hread).
  unfold contentsignaturepki.GetX5U. rewrite Hu. simpl. rewrite Hget. simpl.
  rewrite value_defer. rewrite Hok. simpl. rewrite Hread. simpl.
  apply pem_certificates_S in Hp as (b1 & r1 & c1 & cs1 & E1 & D1 & T1 & P1 & Hp).
  apply pem_certificates_S in Hp as (b2 & r2 & c2 & cs2 & E2 & D2 & T2 & P2 & Hp).
  apply pem_certificates_S in Hp as (b3 & r3 & c3 & cs3 & E3 & D3 & T3 & P3 & Hp).
  simpl in Hp. simplify_eq.
  rewrite D1, T1, P1. simpl. rewrite D2, T2, P2. simpl. rewrite D3, T3, P3. simpl.
  destruct rest; [congruence | reflexivity].
Qed.

(** C1, as the code has it: a three-certificate chain returned without
    error has its end entity verified, for Code Signing, against the root
    pool made of the chain's own third certificate, with the second as the
    only intermediate. *)
Theorem GetX5U_verifies_against_own_root (w : W) (x5u : string)
    (ee inter root : Certificate) :
  value (run h (contentsignaturepki.GetX5U x5u) w) = Returned ([ee; inter; root], None) ->
  exists chains, Certificate_Verify ee (chain_options inter root) = Ok chains.
Proof.
  unfold contentsignaturepki.GetX5U. intros Hv.
  destruct (url_Parse x5u) as [u | ]; simpl in Hv; [ | discriminate].
  destruct (h (Client_Get (contentsignaturepki.x5u_client u) x5u) w) as [[resp | ] w1];
    simpl in Hv; [ | discriminate].
  rewrite value_defer in Hv.
  repeat (case_hyp Hv; simpl in Hv; try discriminate Hv).
  unfold CertPool_AddCert, x509_NewCertPool in *. simpl in *. simplify_eq.
  eexists. eassumption.
Qed.

End GetX5U_facts.

(** *** GetX5U on the testbed *)

Section GetX5U_examples.
#[local] Existing Instance Testbed.url.
#[local] Existing Instance Testbed.pki.
Import Testbed.

Lemma GetX5U_retrieval_failure_witness :
  url_Parse "https://cdn.example/chains/gone.pem" =
    Ok {| Scheme := "https"; Host := "cdn.example"; Path := "/chains/gone.pem" |} /\
  get_failed (fst (sim (Client_Get {| ClientTransport := None |}
                          "https://cdn.example/chains/gone.pem") world0)) = true /\
  exists e, value (run sim (contentsignaturepki.GetX5U "https://cdn.example/chains/gone.pem")
                     world0) = Returned ([], Some e).
Proof.
  split; [reflexivity | ]. split; [reflexivity | ].
  apply (@GetX5U_retrieval_failure url pki World sim world0
           "https://cdn.example/chains/gone.pem"
           {| Scheme := "https"; Host := "cdn.example"; Path := "/chains/gone.pem" |});
    reflexivity.
Defined.

(** The same for a server that cannot be reached. *)
Example GetX5U_unreachable :
  value (run sim (contentsignaturepki.GetX5U "https://down.example/chain.pem") world0) =
  Returned ([], Some (withMessage
    (errorString "Get https://down.example/chain.pem: dial tcp: connection refused")
    "failed to retrieve x5u")).
Proof. vm_compute. reflexivity. Qed.

Lemma GetX5U_verification_witness :
  fetch sim world0 "https://cdn.example/chains/good.pem" = Some good_chain /\
  pem_certificates 3 good_chain = Some ([ee_cert; inter_cert; root_cert], EmptyString) /\
  Certificate_Verify ee_cert (chain_options inter_cert root_cert) =
    Ok [[ee_cert; inter_cert; root_cert]] /\
  value (run sim (contentsignaturepki.GetX5U "https://cdn.example/chains/good.pem") world0) =
    Returned ([ee_cert; inter_cert; root_cert], None).
Proof.
  split; [vm_compute; reflexivity | ]. split; [vm_compute; reflexivity | ].
  split; [vm_compute; reflexivity | ].
  exact (@GetX5U_verification url pki World sim world0
           "https://cdn.example/chains/good.pem" good_chain ee_cert inter_cert root_cert
           ltac:(vm_compute; reflexivity) ltac:(vm_compute; reflexivity)).
Defined.

(** A chain whose end entity lacks the Code Signing usage is refused. *)
Example GetX5U_wrong_usage :
  value (run sim (contentsignaturepki.GetX5U "https://cdn.example/chains/tls.pem") world0) =
  Returned ([tls_ee; inter_cert; root_cert],
            Some (withMessage
              (errorString "x509: certificate specifies an incompatible key usage")
              "failed to verify certificate chain")).
Proof. vm_compute. reflexivity. Qed.

(** An empty body: no certificates and no error. *)
Lemma GetX5U_malformed_chain_no_error_witness :
  0 < 3 /\
  fetch sim world0 "https://cdn.example/chains/empty.pem" = Some EmptyString /\
  pem_certificates 0 EmptyString = Some ([], EmptyString) /\
  not_certificate (fst (pem_Decode EmptyString)) = true /\
  value (run sim (contentsignaturepki.GetX5U "https://cdn.example/chains/empty.pem") world0) =
    Returned ([], None).
Proof.
  split; [lia | ]. split; [vm_compute; reflexivity | ]. split; [reflexivity | ].
  split; [vm_compute; reflexivity | ].
  exact (@GetX5U_malformed_chain_no_error url pki World sim world0
           "https://cdn.example/chains/empty.pem" EmptyString 0 [] EmptyString
           ltac:(lia) ltac:(vm_compute; reflexivity) ltac:(reflexivity)
           ltac:(vm_compute; reflexivity)).
Defined.

(** Two certificates followed by a block of another type: the two
    certificates and no error. *)
Example GetX5U_short_chain :
  value (run sim (contentsignaturepki.GetX5U "https://cdn.example/chains/short.pem") world0) =
  Returned ([ee_cert; inter_cert], None).
Proof. vm_compute. reflexivity. Qed.

(** C1 as stated fails: a chain issued under another root is returned
    without error, though its end entity does not verify against the
    root that is known. *)
Lemma GetX5U_accepts_unknown_root :
  value (run sim (contentsignaturepki.GetX5U "https://cdn.example/chains/rogue.pem") world0) =
    Returned ([rogue_ee; rogue_inter; rogue_root], None) /\
  Certificate_Verify rogue_ee
    {| Roots := [root_cert]; Intermediates := [rogue_inter];
       KeyUsages := [ExtKeyUsageCodeSigning] |} =
    Err (errorString "x509: certificate signed by unknown authority").
Proof. split; vm_compute; reflexivity. Qed.

Lemma GetX5U_verifies_against_own_root_witness :
  value (run sim (contentsignaturepki.GetX5U "https://cdn.example/chains/rogue.pem") world0) =
    Returned ([rogue_ee; rogue_inter; rogue_root], None) /\
  exists chains, Certificate_Verify rogue_ee (chain_options rogue_inter rogue_root) = Ok chains.
Proof.
  split; [vm_compute; reflexivity | ].
  exact (@GetX5U_verifies_against_own_root url pki World sim world0
           "https://cdn.example/chains/rogue.pem" rogue_ee rogue_inter rogue_root
           ltac:(vm_compute; reflexivity)).
Defined.

End GetX5U_examples.

(** ** upload, uploadToS3, writeLocalFile *)

Section Upload_facts.
Context {N : NetURL} {W : Type} (h : Handler W).

(** The calls of writeLocalFile, by what os.Stat and os.MkdirAll answer. *)
Lemma writeLocalFile_calls (w : W) (data name : string) (target : URL) :
  calls (trace (run h (contentsignaturepki.writeLocalFile data name target) w)) =
  os_Stat (Path target) ::
  (if reports_absent (fst (h (os_Stat (Path target)) w)) then
     os_MkdirAll (Path target) (oct 7 5 5) ::
     (if directory_ready h w (Path target)
      then [ioutil_WriteFile (Path target +:+ name) data (oct 7 5 5)] else [])
   else
     if directory_ready h w (Path target)
     then [ioutil_WriteFile (Path target +:+ name) data (oct 7 5 5)] else []).
Proof.
  unfold contentsignaturepki.writeLocalFile, directory_ready. simpl.
  destruct (h (os_Stat (Path target)) w) as [[info | e] w1]; simpl; [reflexivity | ].
  destruct (strings_Contains (Error e) "no such file or directory"); simpl; [ | reflexivity].
  destruct (h (os_MkdirAll (Path target) (oct 7 5 5)) w1) as [[e' | ] w2]; reflexivity.
Qed.

(** The calls of uploadToS3. *)
Lemma uploadToS3_calls (w : W) (data name : string) (target : URL) :
  calls (trace (run h (contentsignaturepki.uploadToS3 data name target) w)) =
  session_NewSession ::
  match fst (h session_NewSession w) with
  | Ok sess =>
      [Uploader_Upload sess
         {| Bucket := Host target; Key := Path target +:+ name; ACL := "public-read";
            UploadBody := data; ContentType := "binary/octet-stream";
            ContentDisposition := "attachment" |}]
  | Err _ => []
  end.
Proof.
  unfold contentsignaturepki.uploadToS3. simpl.
  destruct (h session_NewSession w) as [[sess | e] w1]; reflexivity.
Qed.

(** C5, as the code has it: the directory is made, with mode 0755, exactly
    when os.Stat reports it absent; the chain file is then written with
    mode 0755 as well. *)
Theorem writeLocalFile_modes (w : W) (data name : string) (target : URL) :
  let t := trace (run h (contentsignaturepki.writeLocalFile data name target) w) in
  made_dirs t =
    (if reports_absent (fst (h (os_Stat (Path target)) w))
     then [(Path target, oct 7 5 5)] else []) /\
  written t =
    (if directory_ready h w (Path target)
     then [(Path target +:+ name, data, oct 7 5 5)] else []).
Proof.
  unfold made_dirs, written. rewrite writeLocalFile_calls.
  destruct (reports_absent _), (directory_ready _ _ _); split; reflexivity.
Qed.

(** C10: the S3 object goes to the bucket named by the URL host under the
    key [path ++ name], and the local file to [path ++ name]; nothing is
    put between the two, and nothing depends on how the path ends. *)
Theorem upload_destination (w : W) (data name : string) (target : URL) :
  map (fun i => (Bucket i, Key i))
      (uploads (trace (run h (contentsignaturepki.uploadToS3 data name target) w))) =
    match fst (h session_NewSession w) with
    | Ok _ => [(Host target, Path target +:+ name)]
    | Err _ => []
    end /\
  map (fun f => fst (fst f))
      (written (trace (run h (contentsignaturepki.writeLocalFile data name target) w))) =
    (if directory_ready h w (Path target) then [Path target +:+ name] else []).
Proof.
  unfold uploads, written. rewrite uploadToS3_calls, writeLocalFile_calls. split.
  - destruct (fst (h session_NewSession w)); reflexivity.
  - destruct (reports_absent _), (directory_ready _ _ _); reflexivity.
Qed.

(** C9: upload goes by the scheme of the upload location alone.  An s3
    location runs uploadToS3 and calls nothing but the S3 client; a file
    location runs writeLocalFile and calls nothing but the local file
    system; any other scheme, and a location that does not parse, returns
    an error with no call made and the world as it was. *)
Theorem upload_dispatch (w : W) (s : contentsignaturepki.ContentSigner) (data name : string) :
  let o := run h (contentsignaturepki.upload s data name) w in
  match url_Parse (contentsignaturepki.chainUploadLocation s) with
  | Err e =>
      o = {| value := Returned (Some (withMessage e "failed to parse chain upload location"));
             world := w; trace := [] |}
  | Ok u =>
      if String.eqb (Scheme u) "s3" then
        o = run h (contentsignaturepki.uploadToS3 data name u) w /\
        forallb is_s3_call (calls (trace o)) = true
      else if String.eqb (Scheme u) "file" then
        o = run h (contentsignaturepki.writeLocalFile data name u) w /\
        forallb is_local_file_call (calls (trace o)) = true
      else
        o = {| value := Returned (Some (errorString ("unsupported upload scheme " +:+ Scheme u)));
               world := w; trace := [] |}
  end.
Proof.
  unfold contentsignaturepki.upload. simpl.
  destruct (url_Parse _) as [u | e]; [ | reflexivity].
  destruct (String.eqb (Scheme u) "s3").
  - split; [reflexivity | ]. rewrite uploadToS3_calls.
    destruct (fst (h session_NewSession w)); reflexivity.
  - destruct (String.eqb (Scheme u) "file"); [ | reflexivity].
    split; [reflexivity | ]. rewrite writeLocalFile_calls.
    destruct (reports_absent _), (directory_ready _ _ _); reflexivity.
Qed.

End Upload_facts.

(** *** upload on the testbed *)

Section Upload_examples.
#[local] Existing Instance Testbed.url.
Import Testbed.

(** C5 as stated fails: the chain file is written with mode 0755, not
    0644.  Uploading to a fresh directory under /tmp makes the directory
    and the file, both with mode 0755. *)
Lemma writeLocalFile_mode_not_0644 :
  let o := run sim (contentsignaturepki.upload
                      {| contentsignaturepki.chainUploadLocation := "file:///tmp/chains/" |}
                      good_chain "abc.pem") world0 in
  value o = Returned None /\
  made_dirs (trace o) = [("/tmp/chains/", oct 7 5 5)] /\
  written (trace o) = [("/tmp/chains/abc.pem", good_chain, oct 7 5 5)] /\
  files (world o) !! "/tmp/chains/abc.pem" = Some (oct 7 5 5, good_chain) /\
  oct 7 5 5 <> oct 6 4 4.
Proof. vm_compute. repeat split; discriminate. Qed.

(** A location without the trailing slash: the name is glued to the last
    path element, and the upload succeeds. *)
Example upload_file_without_trailing_slash :
  let o := run sim (contentsignaturepki.upload
                      {| contentsignaturepki.chainUploadLocation := "file:///tmp/chains" |}
                      good_chain "abc.pem") world0 in
  value o = Returned None /\
  made_dirs (trace o) = [("/tmp/chains", oct 7 5 5)] /\
  written (trace o) = [("/tmp/chainsabc.pem", good_chain, oct 7 5 5)].
Proof. vm_compute. repeat split. Qed.

Example upload_s3_without_trailing_slash :
  let o := run sim (contentsignaturepki.upload
                      {| contentsignaturepki.chainUploadLocation := "s3://net-mozaws-autograph/chains" |}
                      good_chain "abc.pem") world0 in
  value o = Returned None /\
  map (fun i => (Bucket i, Key i)) (uploads (trace o)) =
    [("net-mozaws-autograph", "/chainsabc.pem")] /\
  files (world o) = files world0.
Proof. vm_compute. repeat split. Qed.

Example upload_other_scheme :
  run sim (contentsignaturepki.upload
             {| contentsignaturepki.chainUploadLocation := "ftp://host/chains/" |}
             good_chain "abc.pem") world0 =
  {| value := Returned (Some (errorString "unsupported upload scheme ftp"));
     world := world0; trace := [] |}.
Proof. reflexivity. Qed.

End Upload_examples.

(** ** package apk2 *)

Section APK2_facts.
Context {K : KeyLib} {W : Type} (h : Handler W).
Import signer.

(** C6: on a configuration that passes every check, New returns a signer
    holding the PKCS#8 encoding of the key and the minimum SDK version
    "18" for an ECDSA key, "9" for a key of any other type. *)
Theorem New_valid (w : W) (conf : Configuration) (priv : crypto_PrivateKey) (der : bytes) :
  Type_ conf = apk2.Type' ->
  ID conf <> "" ->
  PrivateKey conf <> "" ->
  GetPrivateKey conf = Ok priv ->
  x509_MarshalPKCS8PrivateKey priv = Ok der ->
  signer.Certificate conf <> "" ->
  value (run h (apk2.New conf) w) =
  Returned
    (Some {| apk2.Configuration_ :=
               {| ID := ID conf; Type_ := Type_ conf; PrivateKey := PrivateKey conf;
                  signer.Certificate := signer.Certificate conf;
                  X5U := ""; Mode := ""; PublicKey := "" |};
             apk2.minSdkVersion :=
               match priv with ecdsa_PrivateKey _ => "18" | _ => "9" end;
             apk2.pkcs8Key := der |},
     None).
Proof.
  intros HT HID HPK Hpriv Hder HC.
  apply String.eqb_eq in HT. apply String.eqb_neq in HID, HPK, HC.
  unfold apk2.New. rewrite HT, HID, HPK, Hpriv. simpl.
  destruct priv; simpl; rewrite Hder, HC; reflexivity.
Qed.

(** C8, as the code has it: on a misconfigured configuration New returns
    no signer and a non-nil error; the message starts with "apk2: " and is
    the diagnostic of the first check that fails, which names the check
    and not the signer. *)
Theorem New_misconfigured (w : W) (conf : Configuration) :
  misconfigured conf ->
  exists e,
    value (run h (apk2.New conf) w) = Returned (None, Some e) /\
    String.prefix "apk2: " (Error e) = true /\
    History.first_failed_check conf e.
Proof.
  intros Hbad. unfold apk2.New, History.first_failed_check.
  destruct (String.eqb (Type_ conf) apk2.Type') eqn:HT; simpl.
  2: { apply String.eqb_neq in HT. eexists. repeat split. left. split; [exact HT | reflexivity]. }
  apply String.eqb_eq in HT.
  destruct (String.eqb (ID conf) "") eqn:HID.
  { apply String.eqb_eq in HID. eexists. repeat split. right. split; [exact HT | ].
    left. split; [exact HID | reflexivity]. }
  apply String.eqb_neq in HID.
  destruct (String.eqb (PrivateKey conf) "") eqn:HPK.
  { apply String.eqb_eq in HPK. eexists. repeat split. right. split; [exact HT | ].
    right. split; [exact HID | ]. left. split; [exact HPK | reflexivity]. }
  apply String.eqb_neq in HPK.
  destruct (GetPrivateKey conf) as [priv | e] eqn:Hpriv.
  2: { eexists. repeat split. right. split; [exact HT | ].
       right. split; [exact HID | ]. right. split; [exact HPK | reflexivity]. }
  assert (Hrest : signer.Certificate conf = "").
  { destruct Hbad as [Hb | [Hb | [Hb | [[e Hb] | Hb]]]]; congruence. }
  assert (Hc : String.eqb (signer.Certificate conf) "" = true)
    by (apply String.eqb_eq; exact Hrest).
  destruct priv; simpl;
    destruct (x509_MarshalPKCS8PrivateKey _) eqn:Hder; rewrite ?Hc;
    (eexists; split; [reflexivity | split; [reflexivity | ]];
     right; split; [exact HT | ]; right; split; [exact HID | ];
     right; split; [exact HPK | ]; first [reflexivity | split; [exact Hrest | reflexivity]]).
Qed.

(** The calls of SignFile on its temp files: in every run, whatever the
    environment answers, the temp files are obtained from ioutil.TempFile under the patterns
    apk2_ID.key, apk2_ID.cert and apk2_input_DIGEST.apk, DIGEST being the
    SHA-256 of the input in hexadecimal; each file obtained is written at
    once, the key and the certificate with mode 0400 and the input with
    mode 0755; and the calls end with the removal of every file obtained,
    last obtained first, on every way out. *)
Theorem SignFile_tempfiles (w : W) (s : apk2.APK2Signer) (file : bytes)
    (options : apk2.Options) :
  let t := trace (run h (apk2.SignFile s file options) w) in
  tempfile_patterns t `prefix_of` SignFile_patterns s file /\
  written t =
    zip_with (fun name c => (name, fst c, snd c)) (created t) (SignFile_contents s file) /\
  calls t =
    List.filter (fun c => negb (is_Remove c)) (calls t) ++ map os_Remove (rev (created t)).
Proof.
  unfold apk2.SignFile, SignFile_patterns, SignFile_contents.
  repeat (simpl;
          first [ match goal with
                  | |- context [h ?c ?x] => destruct (h c x) as [? ?]
                  end
                | case_goal ]);
    simpl; (split; [eexists; reflexivity | split; reflexivity]).
Qed.

End APK2_facts.

(** *** The APK2 signer on the testbed *)

Section APK2_examples.
#[local] Existing Instance Testbed.keys.
Import Testbed Samples.

Lemma New_valid_witness :
  GetPrivateKey ecdsa_conf = Ok (signer.ecdsa_PrivateKey "d") /\
  x509_MarshalPKCS8PrivateKey (signer.ecdsa_PrivateKey "d") = Ok "pkcs8(ec,d)" /\
  value (run sim (apk2.New ecdsa_conf) world0) =
  Returned (Some {| apk2.Configuration_ := ecdsa_conf;
                    apk2.minSdkVersion := "18";
                    apk2.pkcs8Key := "pkcs8(ec,d)" |}, None).
Proof.
  split; [reflexivity | ]. split; [reflexivity | ].
  exact (@New_valid keys World sim world0 ecdsa_conf (signer.ecdsa_PrivateKey "d") "pkcs8(ec,d)"
           ltac:(reflexivity) ltac:(discriminate) ltac:(discriminate)
           ltac:(reflexivity) ltac:(reflexivity) ltac:(discriminate)).
Defined.

Example New_rsa :
  value (run sim (apk2.New rsa_conf) world0) =
  Returned (Some {| apk2.Configuration_ := rsa_conf;
                    apk2.minSdkVersion := "9";
                    apk2.pkcs8Key := "pkcs8(rsa,n,e,d)" |}, None).
Proof. reflexivity. Qed.

Lemma New_misconfigured_witness :
  misconfigured keyless_conf /\
  exists e,
    value (run sim (apk2.New keyless_conf) world0) = Returned (None, Some e) /\
    String.prefix "apk2: " (Error e) = true /\
    History.first_failed_check keyless_conf e.
Proof.
  split; [right; right; left; reflexivity | ].
  exact (@New_misconfigured keys World sim world0 keyless_conf
           ltac:(right; right; left; reflexivity)).
Defined.

(** C8 as stated fails: the error for a signer whose private key is
    missing does not mention the signer's ID. *)
Lemma New_error_omits_signer_ID :
  signer.ID keyless_conf = "testapp-android" /\
  value (run sim (apk2.New keyless_conf) world0) =
    Returned (None, Some (errorString "apk2: missing private key in signer configuration")) /\
  strings_Contains "apk2: missing private key in signer configuration"
    (signer.ID keyless_conf) = false.
Proof. repeat split. Qed.

(** A whole run of SignFile: three distinct temp files, all gone at the
    end. *)
Example SignFile_run :
  let s := {| apk2.Configuration_ := ecdsa_conf; apk2.minSdkVersion := "18";
              apk2.pkcs8Key := "pkcs8(ec,d)" |} in
  let o := run sim (apk2.SignFile s "APK" apk2.Build_Options) world0 in
  value o = Returned (Some "APK[signed]", None) /\
  created (trace o) =
    ["/tmp/apk2_apk_cert_with_ecdsa_sha256.key0";
     "/tmp/apk2_apk_cert_with_ecdsa_sha256.cert1";
     "/tmp/apk2_input_41504b0000000000000000000000000000000000000000000000000000000000.apk2"] /\
  removed (trace o) = rev (created (trace o)) /\
  files (world o) = ∅.
Proof. vm_compute. repeat split. Qed.

End APK2_examples.

(** * Further properties *)

Import Replies.

(** Rewriting with the case equations at hand. *)
Ltac use_equations :=
  repeat (simpl;
          match goal with
          | H : pem_Decode _ = _ |- _ => rewrite H
          | H : String.eqb _ _ = _ |- _ => rewrite H
          | H : x509_ParseCertificate _ = _ |- _ => rewrite H
          end).

(** ** GetX5U *)

Section GetX5U_more.
Context {N : NetURL} {X : X509} {W : Type} (h : Handler W).

(** The calls of GetX5U: none when the URL does not parse; otherwise one
    GET, with the zero client or the file-serving one; the body is read
    only under a 200 status, and it is closed on every way out once a
    response was obtained.  No other call is made. *)
Theorem GetX5U_calls (w : W) (x5u : string) :
  calls (trace (run h (contentsignaturepki.GetX5U x5u) w)) =
  match url_Parse x5u with
  | Err _ => []
  | Ok u =>
      Client_Get (contentsignaturepki.x5u_client u) x5u ::
      match fst (h (Client_Get (contentsignaturepki.x5u_client u) x5u) w) with
      | Err _ => []
      | Ok resp =>
          (if Z.eqb (StatusCode resp) http_StatusOK
           then [ioutil_ReadAll (Body resp)] else [])
          ++ [Body_Close (Body resp)]
      end
  end.
Proof.
  unfold contentsignaturepki.GetX5U.
  destruct (url_Parse x5u) as [u | e]; simpl; [ | reflexivity].
  destruct (h (Client_Get (contentsignaturepki.x5u_client u) x5u) w) as [[resp | e] w1];
    simpl; [ | reflexivity].
  rewrite run_defer. simpl. unfold calls. rewrite map_app. simpl.
  destruct (Z.eqb (StatusCode resp) http_StatusOK); simpl; [ | reflexivity].
  destruct (h (ioutil_ReadAll (Body resp)) w1) as [[body | e] w2]; simpl;
    repeat case_goal; reflexivity.
Qed.

(** Where the body cannot be fetched, GetX5U returns no certificate and an
    error; where it can, the certificates returned are the first [k]
    certificates of the body, in order, for some [k] up to three. *)
Theorem GetX5U_result_from_body (w : W) (x5u : string) :
  match fetch h w x5u with
  | None =>
      exists e, value (run h (contentsignaturepki.GetX5U x5u) w) = Returned ([], Some e)
  | Some body =>
      exists certs err k rest,
        value (run h (contentsignaturepki.GetX5U x5u) w) = Returned (certs, err) /\
        k <= 3 /\ pem_certificates k body = Some (certs, rest)
  end.
Proof.
  unfold fetch, contentsignaturepki.GetX5U.
  destruct (url_Parse x5u) as [u | e]; simpl; [ | eauto].
  destruct (h (Client_Get (contentsignaturepki.x5u_client u) x5u) w) as [[resp | e] w1];
    simpl; [ | eauto].
  rewrite value_defer.
  destruct (Z.eqb (StatusCode resp) http_StatusOK); simpl; [ | eauto].
  destruct (h (ioutil_ReadAll (Body resp)) w1) as [[body | e] w2]; simpl; [ | eauto].
  destruct (pem_Decode body) as [[b1 | ] r1] eqn:D1;
    [ | exists [], None, 0, body; repeat split; lia].
  destruct (String.eqb (BlockType b1) "CERTIFICATE") eqn:T1; simpl;
    [ | exists [], None, 0, body; repeat split; lia].
  destruct (x509_ParseCertificate (Bytes b1)) as [ee | e1] eqn:P1; simpl;
    [ | eexists [], _, 0, body; repeat split; lia].
  destruct (pem_Decode r1) as [[b2 | ] r2] eqn:D2;
    [ | eexists [ee], _, 1, r1; split; [reflexivity | split; [lia | use_equations; reflexivity]]].
  destruct (String.eqb (BlockType b2) "CERTIFICATE") eqn:T2; simpl;
    [ | eexists [ee], _, 1, r1; split; [reflexivity | split; [lia | use_equations; reflexivity]]].
  destruct (x509_ParseCertificate (Bytes b2)) as [inter | e2] eqn:P2; simpl;
    [ | eexists [ee], _, 1, r1; split; [reflexivity | split; [lia | use_equations; reflexivity]]].
  destruct (pem_Decode r2) as [[b3 | ] r3] eqn:D3;
    [ | eexists [ee; inter], _, 2, r2;
        split; [reflexivity | split; [lia | use_equations; reflexivity]]].
  destruct (String.eqb (BlockType b3) "CERTIFICATE") eqn:T3; simpl;
    [ | eexists [ee; inter], _, 2, r2;
        split; [reflexivity | split; [lia | use_equations; reflexivity]]].
  destruct (x509_ParseCertificate (Bytes b3)) as [root | e3] eqn:P3; simpl;
    [ | eexists [ee; inter], _, 2, r2;
        split; [reflexivity | split; [lia | use_equations; reflexivity]]].
  destruct (Nat.eqb (String.length r3) 0); simpl;
    [ | eexists [ee; inter], _, 2, r2;
        split; [reflexivity | split; [lia | use_equations; reflexivity]]].
  destruct (Certificate_Verify ee _); simpl;
    eexists [ee; inter; root], _, 3, r3;
    (split; [reflexivity | split; [lia | use_equations; reflexivity]]).
Qed.

(** A CERTIFICATE block whose bytes do not parse is reported: GetX5U
    returns the certificates parsed before it and an error wrapping the
    parser's. *)
Theorem GetX5U_unparsable_certificate (w : W) (x5u : string) (body : bytes)
    (k : nat) (certs : list Certificate) (rest r : bytes) (b : Block) (e : error) :
  k < 3 ->
  fetch h w x5u = Some body ->
  pem_certificates k body = Some (certs, rest) ->
  pem_Decode rest = (Some b, r) ->
  String.eqb (BlockType b) "CERTIFICATE" = true ->
  x509_ParseCertificate (Bytes b) = Err e ->
  exists msg,
    value (run h (contentsignaturepki.GetX5U x5u) w) =
    Returned (certs, Some (withMessage e msg)).
Proof.
  intros Hk Hf Hp Hd Ht He.
  apply fetch_inv in Hf as (u & resp & w1 & w2 & Hu & Hget & Hok & Hread).
  unfold contentsignaturepki.GetX5U. rewrite Hu. simpl. rewrite Hget. simpl.
  rewrite value_defer. rewrite Hok. simpl. rewrite Hread. simpl.
  destruct k as [ | [ | [ | k]]]; [ | | | lia].
  - simpl in Hp. simplify_eq. rewrite Hd, Ht, He. simpl. eauto.
  - apply pem_certificates_S in Hp as (b1 & r1 & c1 & cs1 & E1 & D1 & T1 & P1 & Hp).
    simpl in Hp. simplify_eq. rewrite D1, T1, P1. simpl. rewrite Hd, Ht, He. simpl. eauto.
  - apply pem_certificates_S in Hp as (b1 & r1 & c1 & cs1 & E1 & D1 & T1 & P1 & Hp).
    apply pem_certificates_S in Hp as (b2 & r2 & c2 & cs2 & E2 & D2 & T2 & P2 & Hp).
    simpl in Hp. simplify_eq. rewrite D1, T1, P1. simpl. rewrite D2, T2, P2. simpl.
    rewrite Hd, Ht, He. simpl. eauto.
Qed.

(** A nil error has two origins only: the body stops short of three
    certificates at a block that is missing or is not a CERTIFICATE, or it
    holds exactly three certificates and the end entity verifies. *)
Theorem GetX5U_nil_error_cases (w : W) (x5u : string) (certs : list Certificate) :
  value (run h (contentsignaturepki.GetX5U x5u) w) = Returned (certs, None) ->
  exists body,
    fetch h w x5u = Some body /\ (stops_short body certs \/ verified_chain body certs).
Proof.
  unfold fetch, contentsignaturepki.GetX5U, stops_short, verified_chain.
  destruct (url_Parse x5u) as [u | e]; simpl; [ | discriminate].
  destruct (h (Client_Get (contentsignaturepki.x5u_client u) x5u) w) as [[resp | e] w1];
    simpl; [ | discriminate].
  rewrite value_defer.
  destruct (Z.eqb (StatusCode resp) http_StatusOK); simpl; [ | discriminate].
  destruct (h (ioutil_ReadAll (Body resp)) w1) as [[body | e] w2]; simpl; [ | discriminate].
  intros Hv. exists body. split; [reflexivity | ].
  destruct (pem_Decode body) as [[b1 | ] r1] eqn:D1; simpl in Hv;
    [ | simplify_eq; left; exists 0, body; rewrite D1; repeat split; lia].
  destruct (String.eqb (BlockType b1) "CERTIFICATE") eqn:T1; simpl in Hv;
    [ | simplify_eq; left; exists 0, body; rewrite D1; simpl; rewrite T1; repeat split; lia].
  destruct (x509_ParseCertificate (Bytes b1)) as [ee | e1] eqn:P1; simpl in Hv;
    [ | discriminate].
  destruct (pem_Decode r1) as [[b2 | ] r2] eqn:D2; simpl in Hv;
    [ | simplify_eq; left; exists 1, r1; rewrite D2;
        split; [lia | split; [use_equations | ]; reflexivity]].
  destruct (String.eqb (BlockType b2) "CERTIFICATE") eqn:T2; simpl in Hv;
    [ | simplify_eq; left; exists 1, r1; rewrite D2; simpl; rewrite T2;
        split; [lia | split; [use_equations | ]; reflexivity]].
  destruct (x509_ParseCertificate (Bytes b2)) as [inter | e2] eqn:P2; simpl in Hv;
    [ | discriminate].
  destruct (pem_Decode r2) as [[b3 | ] r3] eqn:D3; simpl in Hv;
    [ | simplify_eq; left; exists 2, r2; rewrite D3;
        split; [lia | split; [use_equations | ]; reflexivity]].
  destruct (String.eqb (BlockType b3) "CERTIFICATE") eqn:T3; simpl in Hv;
    [ | simplify_eq; left; exists 2, r2; rewrite D3; simpl; rewrite T3;
        split; [lia | split; [use_equations | ]; reflexivity]].
  destruct (x509_ParseCertificate (Bytes b3)) as [root | e3] eqn:P3; simpl in Hv;
    [ | discriminate].
  destruct r3 as [ | c3 r3]; simpl in Hv; [ | discriminate].
  destruct (Certificate_Verify ee _) as [chains | ev] eqn:V; simpl in Hv; [ | discriminate].
  simplify_eq. right. exists ee, inter, root, chains.
  split; [reflexivity | split; [use_equations; reflexivity | exact V]].
Qed.

End GetX5U_more.

(** *** GetX5U on the testbed, continued *)

Section GetX5U_more_examples.
#[local] Existing Instance Testbed.url.
#[local] Existing Instance Testbed.pki.
Import Testbed Scenarios.

Lemma GetX5U_unparsable_certificate_witness :
  fetch sim world1 "https://cdn.example/chains/garbled.pem" = Some garbled_chain /\
  pem_certificates 1 garbled_chain =
    Some ([ee_cert], line "CERTIFICATE" "not der" +:+ line "CERTIFICATE" "der(root)") /\
  exists msg,
    value (run sim (contentsignaturepki.GetX5U "https://cdn.example/chains/garbled.pem") world1) =
    Returned ([ee_cert], Some (withMessage (errorString "x509: malformed certificate") msg)).
Proof.
  split; [vm_compute; reflexivity | ]. split; [vm_compute; reflexivity | ].
  exact (@GetX5U_unparsable_certificate url pki World sim world1
           "https://cdn.example/chains/garbled.pem" garbled_chain 1 [ee_cert]
           (line "CERTIFICATE" "not der" +:+ line "CERTIFICATE" "der(root)")
           (line "CERTIFICATE" "der(root)")
           {| BlockType := "CERTIFICATE"; Bytes := "not der" |}
           (errorString "x509: malformed certificate")
           ltac:(lia) ltac:(vm_compute; reflexivity) ltac:(vm_compute; reflexivity)
           ltac:(vm_compute; reflexivity) ltac:(reflexivity) ltac:(reflexivity)).
Defined.

Lemma GetX5U_trailing_data_witness :
  fetch sim world1 "https://cdn.example/chains/trailing.pem" = Some trailing_chain /\
  pem_certificates 3 trailing_chain = Some ([ee_cert; inter_cert; root_cert], "stray") /\
  value (run sim (contentsignaturepki.GetX5U "https://cdn.example/chains/trailing.pem") world1) =
    Returned ([ee_cert; inter_cert],
              Some (errorString "trailing data after root certificate in chain")).
Proof.
  split; [vm_compute; reflexivity | ]. split; [vm_compute; reflexivity | ].
  exact (@GetX5U_trailing_data url pki World sim world1
           "https://cdn.example/chains/trailing.pem" trailing_chain
           [ee_cert; inter_cert; root_cert] "stray"
           ltac:(vm_compute; reflexivity) ltac:(vm_compute; reflexivity) ltac:(discriminate)).
Defined.

Lemma GetX5U_nil_error_cases_witness :
  value (run sim (contentsignaturepki.GetX5U "https://cdn.example/chains/good.pem") world0) =
    Returned ([ee_cert; inter_cert; root_cert], None) /\
  exists body,
    fetch sim world0 "https://cdn.example/chains/good.pem" = Some body /\
    (stops_short body [ee_cert; inter_cert; root_cert] \/
     verified_chain body [ee_cert; inter_cert; root_cert]).
Proof.
  split; [vm_compute; reflexivity | ].
  exact (@GetX5U_nil_error_cases url pki World sim world0
           "https://cdn.example/chains/good.pem" [ee_cert; inter_cert; root_cert]
           ltac:(vm_compute; reflexivity)).
Defined.

End GetX5U_more_examples.

(** ** upload, uploadToS3, writeLocalFile *)

Section Upload_more.
Context {N : NetURL} {W : Type} (h : Handler W).

(** uploadToS3 panics when no session can be made; otherwise it returns
    what the uploader returns, nil included, as it is. *)
Theorem uploadToS3_result (w : W) (data name : string) (target : URL) :
  value (run h (contentsignaturepki.uploadToS3 data name target) w) =
  match fst (h session_NewSession w) with
  | Err e => Panicked e
  | Ok sess =>
      Returned (fst (h (Uploader_Upload sess
                          {| Bucket := Host target; Key := Path target +:+ name;
                             ACL := "public-read"; UploadBody := data;
                             ContentType := "binary/octet-stream";
                             ContentDisposition := "attachment" |})
                       (snd (h session_NewSession w))))
  end.
Proof.
  unfold contentsignaturepki.uploadToS3. simpl.
  destruct (h session_NewSession w) as [[sess | e] w1]; reflexivity.
Qed.

(** Whatever the upload location, every object upload hands to S3 is
    publicly readable, served as an attachment of type
    binary/octet-stream, and holds exactly the data given. *)
Theorem upload_object_attributes (w : W) (s : contentsignaturepki.ContentSigner)
    (data name : string) :
  Forall (public_attachment data)
         (uploads (trace (run h (contentsignaturepki.upload s data name) w))).
Proof.
  unfold contentsignaturepki.upload, uploads.
  destruct (url_Parse _) as [u | e]; [ | constructor].
  destruct (String.eqb (Scheme u) "s3").
  - rewrite uploadToS3_calls. destruct (fst (h session_NewSession w)); simpl.
    + repeat constructor.
    + constructor.
  - destruct (String.eqb (Scheme u) "file"); [ | constructor].
    rewrite writeLocalFile_calls.
    destruct (reports_absent _), (directory_ready _ _ _); constructor.
Qed.

(** writeLocalFile returns nil exactly when it got to write the file and
    the write succeeded. *)
Theorem writeLocalFile_success (w : W) (data name : string) (target : URL) :
  let o := run h (contentsignaturepki.writeLocalFile data name target) w in
  value o = Returned None <-> write_results (trace o) = [None].
Proof.
  unfold contentsignaturepki.writeLocalFile. simpl.
  destruct (h (os_Stat (Path target)) w) as [[info | e] w1]; simpl.
  - destruct (h (ioutil_WriteFile _ _ _) w1) as [r w2]; simpl.
    split; intros Hr; simplify_eq; reflexivity.
  - destruct (strings_Contains (Error e) "no such file or directory"); simpl.
    + destruct (h (os_MkdirAll (Path target) (oct 7 5 5)) w1) as [[e' | ] w2]; simpl.
      * split; intros Hr; discriminate.
      * destruct (h (ioutil_WriteFile _ _ _) w2) as [r w3]; simpl.
        split; intros Hr; simplify_eq; reflexivity.
    + split; intros Hr; discriminate.
Qed.

(** An os.Stat error that does not say the path is absent is returned as
    it is; no directory is made and nothing is written. *)
Theorem writeLocalFile_stat_error (w : W) (data name : string) (target : URL) (e : error) :
  fst (h (os_Stat (Path target)) w) = Err e ->
  strings_Contains (Error e) "no such file or directory" = false ->
  let o := run h (contentsignaturepki.writeLocalFile data name target) w in
  value o = Returned (Some e) /\ calls (trace o) = [os_Stat (Path target)].
Proof.
  unfold contentsignaturepki.writeLocalFile. simpl.
  destruct (h (os_Stat (Path target)) w) as [[info | e0] w1]; simpl; intros He Hc;
    [discriminate | ].
  injection He as ->. rewrite Hc. simpl. split; reflexivity.
Qed.

(** When the directory is absent and cannot be made, the error of
    os.MkdirAll is returned wrapped, and nothing is written. *)
Theorem writeLocalFile_mkdir_failure (w : W) (data name : string) (target : URL)
    (e : error) :
  reports_absent (fst (h (os_Stat (Path target)) w)) = true ->
  fst (h (os_MkdirAll (Path target) (oct 7 5 5)) (snd (h (os_Stat (Path target)) w))) = Some e ->
  let o := run h (contentsignaturepki.writeLocalFile data name target) w in
  value o = Returned (Some (withMessage e "failed to make directory")) /\
  written (trace o) = [].
Proof.
  unfold contentsignaturepki.writeLocalFile, reports_absent. simpl.
  destruct (h (os_Stat (Path target)) w) as [[info | e0] w1]; simpl; intros Ha Hm;
    [discriminate | ].
  rewrite Ha. simpl.
  destruct (h (os_MkdirAll (Path target) (oct 7 5 5)) w1) as [[e' | ] w2]; simpl in *;
    [ | discriminate].
  injection Hm as ->. split; reflexivity.
Qed.

(** upload reports success only after handing the data, once, to S3 or to
    the local file system. *)
Theorem upload_success_stores (w : W) (s : contentsignaturepki.ContentSigner)
    (data name : string) :
  let o := run h (contentsignaturepki.upload s data name) w in
  value o = Returned None ->
  map UploadBody (uploads (trace o)) ++ map (fun f => snd (fst f)) (written (trace o)) = [data].
Proof.
  unfold contentsignaturepki.upload, uploads, written. simpl.
  destruct (url_Parse _) as [u | e]; [ | discriminate].
  destruct (String.eqb (Scheme u) "s3").
  - rewrite uploadToS3_calls. unfold contentsignaturepki.uploadToS3. simpl.
    destruct (h session_NewSession w) as [[sess | e] w1]; simpl; [reflexivity | discriminate].
  - destruct (String.eqb (Scheme u) "file"); [ | discriminate].
    rewrite writeLocalFile_calls.
    unfold contentsignaturepki.writeLocalFile, directory_ready, reports_absent. simpl.
    destruct (h (os_Stat (Path u)) w) as [[info | e] w1]; simpl; [reflexivity | ].
    destruct (strings_Contains (Error e) "no such file or directory"); simpl; [ | discriminate].
    destruct (h (os_MkdirAll (Path u) (oct 7 5 5)) w1) as [[e' | ] w2]; simpl;
      [discriminate | reflexivity].
Qed.

(** upload panics in one situation only: the location has the s3 scheme
    and no session can be made; nothing is uploaded or written then. *)
Theorem upload_panic_only_s3 (w : W) (s : contentsignaturepki.ContentSigner)
    (data name : string) (v : error) :
  let o := run h (contentsignaturepki.upload s data name) w in
  value o = Panicked v ->
  (exists u, url_Parse (contentsignaturepki.chainUploadLocation s) = Ok u /\ Scheme u = "s3") /\
  fst (h session_NewSession w) = Err v /\
  uploads (trace o) = [] /\ written (trace o) = [].
Proof.
  unfold contentsignaturepki.upload, uploads, written. simpl.
  destruct (url_Parse _) as [u | e]; [ | discriminate].
  destruct (String.eqb (Scheme u) "s3") eqn:Hs.
  - apply String.eqb_eq in Hs. rewrite uploadToS3_calls.
    unfold contentsignaturepki.uploadToS3. simpl.
    destruct (h session_NewSession w) as [[sess | e] w1]; simpl; [discriminate | ].
    intros Hv. injection Hv as ->. repeat split. exists u. auto.
  - destruct (String.eqb (Scheme u) "file"); [ | discriminate].
    unfold contentsignaturepki.writeLocalFile. simpl.
    destruct (h (os_Stat (Path u)) w) as [[info | e] w1]; simpl; [discriminate | ].
    destruct (strings_Contains (Error e) "no such file or directory"); simpl; [ | discriminate].
    destruct (h (os_MkdirAll (Path u) (oct 7 5 5)) w1) as [[e' | ] w2]; simpl; discriminate.
Qed.

End Upload_more.

(** *** upload on the testbed, continued *)

Section Upload_more_examples.
#[local] Existing Instance Testbed.url.
Import Testbed Scenarios.

Lemma writeLocalFile_stat_error_witness :
  let target := {| Scheme := "file"; Host := ""; Path := "/root/chains/" |} in
  let o := run sim_denied (contentsignaturepki.writeLocalFile good_chain "abc.pem" target)
               world0 in
  value o = Returned (Some (errorString "stat /root/chains/: permission denied")) /\
  calls (trace o) = [os_Stat "/root/chains/"].
Proof.
  exact (@writeLocalFile_stat_error World sim_denied world0 good_chain "abc.pem"
           {| Scheme := "file"; Host := ""; Path := "/root/chains/" |}
           (errorString "stat /root/chains/: permission denied")
           ltac:(reflexivity) ltac:(vm_compute; reflexivity)).
Defined.

Lemma writeLocalFile_mkdir_failure_witness :
  let target := {| Scheme := "file"; Host := ""; Path := "/srv/chains/" |} in
  let o := run sim_readonly (contentsignaturepki.writeLocalFile good_chain "abc.pem" target)
               world0 in
  value o = Returned (Some (withMessage
              (errorString "mkdir /srv/chains/: read-only file system")
              "failed to make directory")) /\
  written (trace o) = [].
Proof.
  exact (@writeLocalFile_mkdir_failure World sim_readonly world0 good_chain "abc.pem"
           {| Scheme := "file"; Host := ""; Path := "/srv/chains/" |}
           (errorString "mkdir /srv/chains/: read-only file system")
           ltac:(vm_compute; reflexivity) ltac:(vm_compute; reflexivity)).
Defined.

Lemma upload_success_stores_witness :
  let o := run sim (contentsignaturepki.upload
                      {| contentsignaturepki.chainUploadLocation := "s3://bucket/chains/" |}
                      good_chain "abc.pem") world0 in
  value o = Returned None /\
  map UploadBody (uploads (trace o)) ++ map (fun f => snd (fst f)) (written (trace o)) =
    [good_chain].
Proof.
  split; [vm_compute; reflexivity | ].
  exact (@upload_success_stores url World sim world0
           {| contentsignaturepki.chainUploadLocation := "s3://bucket/chains/" |}
           good_chain "abc.pem" ltac:(vm_compute; reflexivity)).
Defined.

Lemma upload_panic_only_s3_witness :
  let o := run sim_no_session
             (contentsignaturepki.upload
                {| contentsignaturepki.chainUploadLocation := "s3://bucket/chains/" |}
                good_chain "abc.pem") world0 in
  value o = Panicked (errorString "NoCredentialProviders: no valid providers in chain") /\
  (exists u, url_Parse "s3://bucket/chains/" = Ok u /\ Scheme u = "s3") /\
  fst (sim_no_session session_NewSession world0) =
    Err (errorString "NoCredentialProviders: no valid providers in chain") /\
  uploads (trace o) = [] /\ written (trace o) = [].
Proof.
  split; [vm_compute; reflexivity | ].
  exact (@upload_panic_only_s3 url World sim_no_session world0
           {| contentsignaturepki.chainUploadLocation := "s3://bucket/chains/" |}
           good_chain "abc.pem"
           (errorString "NoCredentialProviders: no valid providers in chain")
           ltac:(vm_compute; reflexivity)).
Defined.

End Upload_more_examples.

(** ** package apk2 *)

(** Case analysis on a variable the goal branches on. *)
Ltac case_var :=
  match goal with
  | |- context [match ?x with _ => _ end] => is_var x; destruct x
  end.

Section APK2_more.
Context {K : KeyLib} {W : Type} (h : Handler W).
Import signer.

(** What a signer returned by New is made of. *)
Lemma New_returns (w : W) (conf : Configuration) (s : apk2.APK2Signer) :
  value (run h (apk2.New conf) w) = Returned (Some s, None) ->
  Type_ conf = apk2.Type' /\ ID conf <> "" /\ PrivateKey conf <> "" /\
  signer.Certificate conf <> "" /\
  exists priv der,
    GetPrivateKey conf = Ok priv /\ x509_MarshalPKCS8PrivateKey priv = Ok der /\
    s = {| apk2.Configuration_ :=
             {| ID := ID conf; Type_ := Type_ conf; PrivateKey := PrivateKey conf;
                signer.Certificate := signer.Certificate conf;
                X5U := ""; Mode := ""; PublicKey := "" |};
           apk2.minSdkVersion := match priv with ecdsa_PrivateKey _ => "18" | _ => "9" end;
           apk2.pkcs8Key := der |}.
Proof.
  unfold apk2.New.
  destruct (String.eqb (Type_ conf) apk2.Type') eqn:HT; simpl; [ | discriminate].
  destruct (String.eqb (ID conf) "") eqn:HID; [discriminate | ].
  destruct (String.eqb (PrivateKey conf) "") eqn:HPK; [discriminate | ].
  destruct (GetPrivateKey conf) as [priv | e] eqn:Hpriv; [ | discriminate].
  apply String.eqb_eq in HT. apply String.eqb_neq in HID, HPK.
  destruct priv; simpl;
    destruct (x509_MarshalPKCS8PrivateKey _) as [der | e] eqn:Hder; try discriminate;
    destruct (String.eqb (signer.Certificate conf) "") eqn:HC; try discriminate;
    apply String.eqb_neq in HC; simpl; intros Hv; simplify_eq;
    repeat split; auto; eexists _, der; repeat split; eauto.
Qed.

(** New returns a signer only for a configuration that passes every
    check: right type tag, ID, private key and certificate present, a key
    that parses and that PKCS#8 can encode. *)
Theorem New_success_inv (w : W) (conf : Configuration) (s : apk2.APK2Signer) :
  value (run h (apk2.New conf) w) = Returned (Some s, None) ->
  ~ misconfigured conf /\
  exists priv,
    GetPrivateKey conf = Ok priv /\
    x509_MarshalPKCS8PrivateKey priv = Ok (apk2.pkcs8Key s).
Proof.
  intros Hv.
  apply New_returns in Hv as (HT & HID & HPK & HC & priv & der & Hp & Hd & ->).
  split.
  - intros [Hb | [Hb | [Hb | [[e Hb] | Hb]]]]; congruence.
  - exists priv. split; assumption.
Qed.

(** Config, on a signer returned by New for [conf], gives back the ID,
    type, private key and certificate of [conf], and those four only. *)
Theorem New_Config_round_trip (w : W) (conf : Configuration) (s : apk2.APK2Signer) :
  value (run h (apk2.New conf) w) = Returned (Some s, None) ->
  apk2.Config s =
  {| ID := ID conf; Type_ := Type_ conf; PrivateKey := PrivateKey conf;
     signer.Certificate := signer.Certificate conf;
     X5U := ""; Mode := ""; PublicKey := "" |}.
Proof.
  intros Hv.
  apply New_returns in Hv as (HT & HID & HPK & HC & priv & der & Hp & Hd & ->).
  reflexivity.
Qed.

(** New never panics and never returns a signer together with an error,
    nor neither: it is a signer and nil, or no signer and an error whose
    message starts with "apk2: ". *)
Theorem New_result_shape (w : W) (conf : Configuration) :
  (exists s, value (run h (apk2.New conf) w) = Returned (Some s, None)) \/
  (exists e, value (run h (apk2.New conf) w) = Returned (None, Some e) /\
             String.prefix "apk2: " (Error e) = true).
Proof.
  unfold apk2.New.
  destruct (String.eqb (Type_ conf) apk2.Type'); simpl;
    [ | right; eexists; split; reflexivity].
  destruct (String.eqb (ID conf) ""); [right; eexists; split; reflexivity | ].
  destruct (String.eqb (PrivateKey conf) ""); [right; eexists; split; reflexivity | ].
  destruct (GetPrivateKey conf) as [priv | e]; [ | right; eexists; split; reflexivity].
  destruct priv; simpl;
    destruct (x509_MarshalPKCS8PrivateKey _);
    try (right; eexists; split; reflexivity);
    destruct (String.eqb (signer.Certificate conf) "");
    solve [ right; eexists; split; reflexivity | left; eexists; reflexivity ].
Qed.

(** A key that parses but that PKCS#8 cannot encode makes New fail with
    the encoder's error wrapped, whatever the rest of the configuration. *)
Theorem New_unmarshalable_key (w : W) (conf : Configuration) (priv : crypto_PrivateKey)
    (e : error) :
  Type_ conf = apk2.Type' ->
  ID conf <> "" ->
  PrivateKey conf <> "" ->
  GetPrivateKey conf = Ok priv ->
  x509_MarshalPKCS8PrivateKey priv = Err e ->
  value (run h (apk2.New conf) w) =
  Returned (None, Some (withMessage e "apk2: failed to encode private key to pkcs8")).
Proof.
  intros HT HID HPK Hpriv Hder.
  apply String.eqb_eq in HT. apply String.eqb_neq in HID, HPK.
  unfold apk2.New. rewrite HT, HID, HPK, Hpriv. simpl.
  destruct priv; simpl; rewrite Hder; reflexivity.
Qed.

End APK2_more.

(** *** The [%x] rendering of a digest *)

Lemma contains_star_cons (c : ascii) (s : string) :
  strings_Contains (String c s) "*" =
  (if ascii_dec "*" c then true else false) || strings_Contains s "*".
Proof.
  cbn [strings_Contains]. f_equal. cbn [String.prefix].
  destruct (ascii_dec "*" c); [destruct s | ]; reflexivity.
Qed.

Lemma contains_star_app (a b : string) :
  strings_Contains (a +:+ b) "*" = strings_Contains a "*" || strings_Contains b "*".
Proof.
  induction a as [ | c a IH].
  - reflexivity.
  - change (String c a +:+ b) with (String c (a +:+ b)).
    rewrite !contains_star_cons, IH, orb_assoc. reflexivity.
Qed.

Lemma hex_byte_no_star (b : ascii) : strings_Contains (hex_byte b) "*" = false.
Proof. destruct b as [[] [] [] [] [] [] [] []]; reflexivity. Qed.

Lemma fmt_x_no_star (b : bytes) : strings_Contains (fmt_x b) "*" = false.
Proof.
  induction b as [ | c b IH]; [reflexivity | ].
  change (fmt_x (String c b)) with (hex_byte c +:+ fmt_x b).
  rewrite contains_star_app, hex_byte_no_star, IH. reflexivity.
Qed.

Lemma length_append (a b : string) :
  String.length (a +:+ b) = String.length a + String.length b.
Proof.
  induction a as [ | c a IH]; [reflexivity | ].
  change (String c a +:+ b) with (String c (a +:+ b)).
  cbn [String.length]. rewrite IH. reflexivity.
Qed.

Lemma fmt_x_length (b : bytes) : String.length (fmt_x b) = 2 * String.length b.
Proof.
  induction b as [ | c b IH]; [reflexivity | ].
  change (fmt_x (String c b)) with (hex_byte c +:+ fmt_x b).
  rewrite length_append, IH. cbn [String.length hex_byte]. lia.
Qed.

Section SignFile_more.
Context {K : KeyLib} {W : Type} (h : Handler W).

(** Every reply of the environment taken in turn. *)
Ltac every_reply :=
  repeat (simpl;
          first [ match goal with
                  | |- context [h ?c ?x] => destruct (h c x) as [? ?]
                  end
                | case_var ]);
  simpl.

(** SignFile never panics: it returns the signed file and nil, or no file
    and an error whose message starts with "apk2: ". *)
Theorem SignFile_result_shape (w : W) (s : apk2.APK2Signer) (file : bytes)
    (options : apk2.Options) :
  (exists signed, value (run h (apk2.SignFile s file options) w) = Returned (Some signed, None)) \/
  (exists e, value (run h (apk2.SignFile s file options) w) = Returned (None, Some e) /\
             String.prefix "apk2: " (Error e) = true).
Proof.
  unfold apk2.SignFile. every_reply;
    solve [ left; eexists; reflexivity | right; eexists; split; reflexivity ].
Qed.

(** The signing command is run exactly when the three temp files were
    obtained, whether or not the input could be written to the third; it
    is given their names as key, certificate and input, and the signer's
    minimum SDK version. *)
Theorem SignFile_command (w : W) (s : apk2.APK2Signer) (file : bytes)
    (options : apk2.Options) :
  let t := trace (run h (apk2.SignFile s file options) w) in
  commands t =
  match created t with
  | [key; cert; input] => [apksigner_command s key cert input]
  | _ => []
  end.
Proof. unfold apk2.SignFile. every_reply; reflexivity. Qed.

(** On success the bytes returned are those read back from the third temp
    file, the one handed to the signing command, after that command
    succeeded. *)
Theorem SignFile_success_inv (w : W) (s : apk2.APK2Signer) (file : bytes)
    (options : apk2.Options) (signed : bytes) :
  let o := run h (apk2.SignFile s file options) w in
  value o = Returned (Some signed, None) ->
  exists key cert input out,
    created (trace o) = [key; cert; input] /\
    command_results (trace o) = [(out, None)] /\
    file_reads (trace o) = [(input, Ok signed)].
Proof.
  unfold apk2.SignFile. every_reply; intros Hv; try discriminate.
  simplify_eq. eexists _, _, _, _. repeat split.
Qed.

(** When the signing command fails, its output is part of the error
    returned, and the input file is not read back. *)
Theorem SignFile_sign_failure (w : W) (s : apk2.APK2Signer) (file : bytes)
    (options : apk2.Options) (out : bytes) (cause : error) :
  let o := run h (apk2.SignFile s file options) w in
  In (out, Some cause) (command_results (trace o)) ->
  value o = Returned (None, Some (withMessage cause ("apk2: failed to sign" +:+ nl +:+ out))) /\
  file_reads (trace o) = [].
Proof.
  unfold apk2.SignFile. every_reply; intros Hin;
    repeat (destruct Hin as [Hin | Hin]); try contradiction; simplify_eq;
    split; reflexivity.
Qed.

(** The pattern of the input temp file holds no "*", whatever the input,
    and its length is fixed by that of the digest. *)
Theorem SignFile_input_pattern (w : W) (s : apk2.APK2Signer) (file : bytes)
    (options : apk2.Options) (dir pattern : string) :
  tempfile_patterns (trace (run h (apk2.SignFile s file options) w)) !! 2 =
    Some (dir, pattern) ->
  strings_Contains pattern "*" = false /\
  String.length pattern = 15 + 2 * String.length (sha256_Sum file).
Proof.
  assert (Hstar : strings_Contains ("apk2_input_" +:+ fmt_x (sha256_Sum file) +:+ ".apk") "*"
                  = false).
  { rewrite !contains_star_app, fmt_x_no_star. reflexivity. }
  assert (Hlen : String.length ("apk2_input_" +:+ fmt_x (sha256_Sum file) +:+ ".apk")
                 = 15 + 2 * String.length (sha256_Sum file)).
  { rewrite !length_append, fmt_x_length. cbn [String.length]. lia. }
  unfold apk2.SignFile. cbv zeta.
  set (p := "apk2_input_" +:+ fmt_x (sha256_Sum file) +:+ ".apk") in *.
  clearbody p.
  every_reply; intros Hp; try discriminate; simplify_eq; split; assumption.
Qed.

(** SignFile starts by asking for the key's temp file, and every run ends
    with the removal of each temp file obtained, last obtained first,
    after all its other calls; this holds on every way out. *)
Theorem SignFile_cleanup (w : W) (s : apk2.APK2Signer) (file : bytes)
    (options : apk2.Options) :
  let t := trace (run h (apk2.SignFile s file options) w) in
  head (calls t) =
    Some (ioutil_TempFile "" ("apk2_" +:+ signer.ID (apk2.Configuration_ s) +:+ ".key")) /\
  calls t =
    List.filter (fun c => negb (is_Remove c)) (calls t) ++ map os_Remove (rev (created t)).
Proof. unfold apk2.SignFile. every_reply; split; reflexivity. Qed.

End SignFile_more.

(** *** The APK2 signer on the testbed, continued *)

Section APK2_more_examples.
#[local] Existing Instance Testbed.keys.
Import Testbed Samples Scenarios.

Lemma New_success_inv_witness :
  value (run sim (apk2.New ecdsa_conf) world0) = Returned (Some ecdsa_signer, None) /\
  ~ misconfigured ecdsa_conf /\
  exists priv,
    GetPrivateKey ecdsa_conf = Ok priv /\
    x509_MarshalPKCS8PrivateKey priv = Ok (apk2.pkcs8Key ecdsa_signer).
Proof.
  split; [reflexivity | ].
  exact (@New_success_inv keys World sim world0 ecdsa_conf ecdsa_signer ltac:(reflexivity)).
Defined.

Lemma New_Config_round_trip_witness :
  value (run sim (apk2.New ecdsa_conf) world0) = Returned (Some ecdsa_signer, None) /\
  apk2.Config ecdsa_signer = ecdsa_conf.
Proof.
  split; [reflexivity | ].
  exact (@New_Config_round_trip keys World sim world0 ecdsa_conf ecdsa_signer
           ltac:(reflexivity)).
Defined.

Lemma New_unmarshalable_key_witness :
  GetPrivateKey dsa_conf = Ok (signer.other_PrivateKey "*dsa.PrivateKey" "p,q,g,x") /\
  value (run sim (apk2.New dsa_conf) world0) =
  Returned (None, Some (withMessage
    (errorString "x509: unknown key type while marshaling PKCS#8: *dsa.PrivateKey")
    "apk2: failed to encode private key to pkcs8")).
Proof.
  split; [reflexivity | ].
  exact (@New_unmarshalable_key keys World sim world0 dsa_conf
           (signer.other_PrivateKey "*dsa.PrivateKey" "p,q,g,x")
           (errorString "x509: unknown key type while marshaling PKCS#8: *dsa.PrivateKey")
           ltac:(reflexivity) ltac:(discriminate) ltac:(discriminate)
           ltac:(reflexivity) ltac:(reflexivity)).
Defined.

Lemma SignFile_success_inv_witness :
  let o := run sim (apk2.SignFile ecdsa_signer "APK" apk2.Build_Options) world0 in
  value o = Returned (Some "APK[signed]", None) /\
  exists key cert input out,
    created (trace o) = [key; cert; input] /\
    command_results (trace o) = [(out, None)] /\
    file_reads (trace o) = [(input, Ok "APK[signed]")].
Proof.
  split; [vm_compute; reflexivity | ].
  exact (@SignFile_success_inv keys World sim world0 ecdsa_signer "APK" apk2.Build_Options
           "APK[signed]" ltac:(vm_compute; reflexivity)).
Defined.

Lemma SignFile_sign_failure_witness :
  let o := run sim_no_java (apk2.SignFile ecdsa_signer "APK" apk2.Build_Options) world0 in
  command_results (trace o) =
    [("Error: Unable to access jarfile /usr/bin/apksigner", Some (errorString "exit status 1"))] /\
  value o =
    Returned (None, Some (withMessage (errorString "exit status 1")
      ("apk2: failed to sign" +:+ nl +:+ "Error: Unable to access jarfile /usr/bin/apksigner"))) /\
  file_reads (trace o) = [].
Proof.
  split; [vm_compute; reflexivity | ].
  exact (@SignFile_sign_failure keys World sim_no_java world0 ecdsa_signer "APK"
           apk2.Build_Options "Error: Unable to access jarfile /usr/bin/apksigner"
           (errorString "exit status 1") ltac:(vm_compute; left; reflexivity)).
Defined.

Lemma SignFile_input_pattern_witness :
  let o := run sim (apk2.SignFile ecdsa_signer "APK" apk2.Build_Options) world0 in
  tempfile_patterns (trace o) !! 2 =
    Some (EmptyString,
          "apk2_input_41504b0000000000000000000000000000000000000000000000000000000000.apk") /\
  strings_Contains
    "apk2_input_41504b0000000000000000000000000000000000000000000000000000000000.apk" "*"
    = false /\
  String.length
    "apk2_input_41504b0000000000000000000000000000000000000000000000000000000000.apk"
    = 15 + 2 * String.length (sha256_Sum "APK").
Proof.
  split; [vm_compute; reflexivity | ].
  exact (@SignFile_input_pattern keys World sim world0 ecdsa_signer "APK" apk2.Build_Options
           EmptyString
           "apk2_input_41504b0000000000000000000000000000000000000000000000000000000000.apk"
           ltac:(vm_compute; reflexivity)).
Defined.

End APK2_more_examples.

(** *** The key file on disk *)

Section SignFile_on_disk.
Context {K : KeyLib}.
Import Testbed Scenarios.

(** C7: the key material does not end up in a file of mode 0400.  In the
    testbed, whose TempFile creates the file with mode 0600 and whose
    WriteFile keeps the mode of a file that exists, as Go's do: for every
    signer, input and starting world, the second call of SignFile writes
    the key into the temp file just obtained, passing 0400, and the file
    then holds the key with mode 0600. *)
Theorem SignFile_key_file_mode (w : World) (s : apk2.APK2Signer) (file : bytes)
    (options : apk2.Options) :
  let p := apk2.SignFile s file options in
  let key := "/tmp/" +:+ ("apk2_" +:+ signer.ID (apk2.Configuration_ s) +:+ ".key")
             +:+ pretty (next_temp w) in
  calls (trace (run sim p w)) !! 1 = Some (ioutil_WriteFile key (apk2.pkcs8Key s) (oct 4 0 0)) /\
  (exists w2, History.worlds sim p w !! 1 = Some w2 /\
              files w2 !! key = Some (oct 6 0 0, apk2.pkcs8Key s)) /\
  oct 6 0 0 <> oct 4 0 0.
Proof.
  unfold apk2.SignFile. cbv zeta.
  cbn [run History.worlds defer sim fst snd calls map trace projT1 String.eqb
       Name files bump_temp set_files].
  change ("/tmp" +:+ "/" +:+ ("apk2_" +:+ signer.ID (apk2.Configuration_ s) +:+ ".key")
          +:+ pretty (next_temp w))
    with ("/tmp/" +:+ ("apk2_" +:+ signer.ID (apk2.Configuration_ s) +:+ ".key")
          +:+ pretty (next_temp w)).
  set (key := "/tmp/" +:+ ("apk2_" +:+ signer.ID (apk2.Configuration_ s) +:+ ".key")
              +:+ pretty (next_temp w)).
  rewrite !lookup_insert_eq.
  cbn [fst snd files set_files bump_temp].
  split; [reflexivity | ]. split; [ | discriminate].
  eexists. split; [reflexivity | ].
  cbn [files set_files]. apply lookup_insert_eq.
Qed.

End SignFile_on_disk.

Section SignFile_on_disk_example.
#[local] Existing Instance Testbed.keys.
Import Testbed Scenarios.

(** The files as the signing command finds them, in a whole run: the key,
    the certificate and the input all have mode 0600, whatever mode was
    passed when writing them. *)
Example SignFile_modes_when_signing :
  let p := apk2.SignFile ecdsa_signer "APK" apk2.Build_Options in
  calls (trace (run sim p world0)) !! 6 =
    Some (Cmd_CombinedOutput
            (apksigner_command ecdsa_signer
               "/tmp/apk2_apk_cert_with_ecdsa_sha256.key0"
               "/tmp/apk2_apk_cert_with_ecdsa_sha256.cert1"
               "/tmp/apk2_input_41504b0000000000000000000000000000000000000000000000000000000000.apk2")) /\
  (map_to_list <$> (files <$> History.worlds sim p world0 !! 5)) =
    Some (map_to_list (
      <["/tmp/apk2_apk_cert_with_ecdsa_sha256.key0" := (oct 6 0 0, "pkcs8(ec,d)")]>
      (<["/tmp/apk2_apk_cert_with_ecdsa_sha256.cert1" := (oct 6 0 0, "cert")]>
      (<["/tmp/apk2_input_41504b0000000000000000000000000000000000000000000000000000000000.apk2"
           := (oct 6 0 0, "APK")]> (∅ : gmap string (FileMode * bytes)))))).
Proof. vm_compute. split; reflexivity. Qed.

End SignFile_on_disk_example.
